(** * acerhdf (Acer Predator Helios 500 mod): fan control loop, verified

    A shallow embedding of [src/acerhdf.c].  The driver's file-scope
    variables become one record [driver]; the Embedded Controller is a
    bus with a response oracle and a transaction log; every C function
    that is modelled keeps its name and threads the driver state and
    the bus explicitly.  C integers are [Z] with the conversions
    written out. *)

From Stdlib Require Import ZArith String Ascii Lia Bool.
From stdpp Require Import base list strings.

Open Scope Z_scope.

(** ** Machine integers *)

Module CInt.

(** [(unsigned char) v] *)
Definition u8 (v : Z) : Z := v mod 256.

(** conversion to [unsigned int] *)
Definition u32 (v : Z) : Z := v mod 2 ^ 32.

(** conversion to [int]: two's complement, as gcc does it (the kernel
    is built with wrapping signed arithmetic) *)
Definition s32 (v : Z) : Z := (v + 2 ^ 31) mod 2 ^ 32 - 2 ^ 31.

Definition is_u8 (v : Z) : Prop := 0 <= v < 256.
Definition is_u32 (v : Z) : Prop := 0 <= v < 2 ^ 32.
Definition is_s32 (v : Z) : Prop := - 2 ^ 31 <= v < 2 ^ 31.

End CInt.
Import CInt.

(** ** Constants of the driver *)

Definition TEMPERATURE_SAMPLES : Z := 10.
Definition MIN_FAN_SPEED : Z := 4.
Definition ACERHDF_TEMP_CRIT : Z := 89.
Definition ACERHDF_FAN_OFF : Z := 0.
Definition ACERHDF_FAN_AUTO : Z := 1.
Definition ACERHDF_MAX_FANON : Z := 80000.
Definition ACERHDF_MAX_INTERVAL : Z := 15.

(** errno values of the kernel *)
Definition EINVAL : Z := 22.
Definition ECANCELED : Z := 125.

(** A C function that returns 0 and stores through its out-pointer, or
    returns a non-zero code and stores nothing. *)
Inductive cres (A : Type) : Type :=
| Ok (a : A)
| Err (code : Z).
Arguments Ok {A} a.
Arguments Err {A} code.

Definition ret_code {A} (r : cres A) : Z :=
  match r with Ok _ => 0 | Err c => c end.

(** ** The Embedded Controller *)

(** One transaction on the EC: a read of a register with what it gave
    ([None]: the read failed), or a write of a byte to a register. *)
Inductive ec_event : Type :=
| EcRead (reg : Z) (res : option Z)
| EcWrite (reg val : Z).

(** The bus: [ec_resp n reg] is what the EC answers when transaction
    number [n] is a read of [reg]; [ec_log] holds the transactions done
    so far, oldest first. *)
Record ec_bus : Type := mkBus {
  ec_resp : nat -> Z -> option Z;
  ec_log : list ec_event
}.

(** [ec_read(reg, &val)]: [Some b] when it returns 0 with the byte [b]. *)
Definition ec_read (bus : ec_bus) (reg : Z) : option Z * ec_bus :=
  let r := option_map u8 (ec_resp bus (length (ec_log bus)) reg) in
  (r, mkBus (ec_resp bus) (ec_log bus ++ [EcRead reg r])).

(** [ec_write(reg, val)]; the driver drops its return value. *)
Definition ec_write (bus : ec_bus) (reg val : Z) : ec_bus :=
  mkBus (ec_resp bus) (ec_log bus ++ [EcWrite reg val]).

Definition is_write (e : ec_event) : bool :=
  match e with EcWrite _ _ => true | EcRead _ _ => false end.

Definition is_read (e : ec_event) : bool :=
  match e with EcRead _ _ => true | EcWrite _ _ => false end.

Definition ec_writes (bus : ec_bus) : list ec_event :=
  List.filter is_write (ec_log bus).

Definition ec_reads (bus : ec_bus) : list ec_event :=
  List.filter is_read (ec_log bus).

(** ** Driver state *)

Record fancmd : Type := mkFancmd { cmd_off : Z; cmd_auto : Z }.

Record bios_settings : Type := mkBios {
  bs_vendor : string;
  bs_product : string;
  bs_version : string;
  bs_fanreg : Z;
  bs_tempreg : Z;
  bs_cmd : fancmd;
  bs_mcmd_enable : Z
}.

Record ctrl_settings : Type := mkCtrl {
  fanreg : Z;
  tempreg : Z;
  cmd : fancmd;
  mcmd_enable : Z
}.

(** The field of [struct thermal_zone_device] the driver touches. *)
Record thermal_zone_device : Type := mkZone { polling_delay : Z }.

(** The file-scope variables.  [zone] is the thermal zone object the
    thermal core hands to the zone callbacks; [thz_dev] tells whether
    the global pointer of that name points to it already: it is NULL
    until [thermal_zone_device_register] has returned. *)
Record driver : Type := mkDriver {
  kernelmode : Z;
  interval : Z;
  fanon : Z;
  fanoff : Z;
  samples : list Z;
  current_sample : Z;
  fanstate : Z;
  prev_interval : Z;
  ctrl_cfg : ctrl_settings;
  zone : thermal_zone_device;
  thz_dev : bool
}.

Definition set_kernelmode (v : Z) (d : driver) : driver :=
  mkDriver v (interval d) (fanon d) (fanoff d) (samples d) (current_sample d)
           (fanstate d) (prev_interval d) (ctrl_cfg d) (zone d) (thz_dev d).
Definition set_interval (v : Z) (d : driver) : driver :=
  mkDriver (kernelmode d) v (fanon d) (fanoff d) (samples d) (current_sample d)
           (fanstate d) (prev_interval d) (ctrl_cfg d) (zone d) (thz_dev d).
Definition set_fanon (v : Z) (d : driver) : driver :=
  mkDriver (kernelmode d) (interval d) v (fanoff d) (samples d) (current_sample d)
           (fanstate d) (prev_interval d) (ctrl_cfg d) (zone d) (thz_dev d).
Definition set_samples (v : list Z) (d : driver) : driver :=
  mkDriver (kernelmode d) (interval d) (fanon d) (fanoff d) v (current_sample d)
           (fanstate d) (prev_interval d) (ctrl_cfg d) (zone d) (thz_dev d).
Definition set_current_sample (v : Z) (d : driver) : driver :=
  mkDriver (kernelmode d) (interval d) (fanon d) (fanoff d) (samples d) v
           (fanstate d) (prev_interval d) (ctrl_cfg d) (zone d) (thz_dev d).
Definition set_fanstate (v : Z) (d : driver) : driver :=
  mkDriver (kernelmode d) (interval d) (fanon d) (fanoff d) (samples d) (current_sample d)
           v (prev_interval d) (ctrl_cfg d) (zone d) (thz_dev d).
Definition set_prev_interval (v : Z) (d : driver) : driver :=
  mkDriver (kernelmode d) (interval d) (fanon d) (fanoff d) (samples d) (current_sample d)
           (fanstate d) v (ctrl_cfg d) (zone d) (thz_dev d).
Definition set_ctrl_cfg (v : ctrl_settings) (d : driver) : driver :=
  mkDriver (kernelmode d) (interval d) (fanon d) (fanoff d) (samples d) (current_sample d)
           (fanstate d) (prev_interval d) v (zone d) (thz_dev d).
Definition set_polling_delay (v : Z) (d : driver) : driver :=
  mkDriver (kernelmode d) (interval d) (fanon d) (fanoff d) (samples d) (current_sample d)
           (fanstate d) (prev_interval d) (ctrl_cfg d) (mkZone v) (thz_dev d).

(** The module parameters and counters hold values of their C types. *)
Record driver_typed (d : driver) : Prop := mkTyped {
  typed_interval : is_u32 (interval d);
  typed_fanon : is_u32 (fanon d);
  typed_fanoff : is_u32 (fanoff d);
  typed_prev : is_u32 (prev_interval d)
}.

(** ** The sample ring *)

(** [a[i] = v].  An index outside the array is undefined in C; the
    cursor never leaves [0, 10) (see [tick_keeps_ring]), and the
    model leaves the array alone there. *)
Definition array_store (a : list Z) (i v : Z) : list Z :=
  if (0 <=? i) && (i <? Z.of_nat (length a))
  then <[ Z.to_nat i := v ]> a
  else a.

(** [a[i]] *)
Definition array_load (a : list Z) (i : nat) : Z := default 0 (a !! i).

(** [cur_temp = 0; for (i = 0; i < TEMPERATURE_SAMPLES; i++) cur_temp += samples[i];] *)
Definition sum_samples (a : list Z) : Z :=
  fold_left (fun cur_temp i => s32 (cur_temp + array_load a i))
            (seq 0 (Z.to_nat TEMPERATURE_SAMPLES)) 0.

(** [cur_temp = cur_temp / TEMPERATURE_SAMPLES;] (C division truncates) *)
Definition smoothed (a : list Z) : Z :=
  Z.quot (sum_samples a) TEMPERATURE_SAMPLES.

(** ** EC accessors *)

(** [acerhdf_get_temp(&temp)] *)
Definition acerhdf_get_temp (d : driver) (bus : ec_bus) : cres Z * ec_bus :=
  let '(r, bus) := ec_read bus (tempreg (ctrl_cfg d)) in
  match r with
  | None => (Err (- EINVAL), bus)
  | Some read_temp => (Ok read_temp, bus)
  end.

(** [acerhdf_get_fanstate(&state)] *)
Definition acerhdf_get_fanstate (d : driver) (bus : ec_bus) : cres Z * ec_bus :=
  let '(r, bus) := ec_read bus (fanreg (ctrl_cfg d)) in
  match r with
  | None => (Err (- EINVAL), bus)
  | Some fan => (Ok fan, bus)
  end.

(** [acerhdf_change_fanstate(state)] *)
Definition acerhdf_change_fanstate (d : driver) (bus : ec_bus) (state : Z)
  : driver * ec_bus :=
  let d := set_fanstate (u32 state) d in
  (d, ec_write bus (fanreg (ctrl_cfg d)) (u8 state)).

(** ** Parameter clamping *)

(** [acerhdf_check_param(thermal)]; [thermal] is [zone d]. *)
Definition acerhdf_check_param (d : driver) : driver :=
  let d := if fanon d >? ACERHDF_MAX_FANON
           then set_fanon ACERHDF_MAX_FANON d else d in
  if negb (kernelmode d =? 0) && negb (prev_interval d =? interval d) then
    let d := if interval d >? ACERHDF_MAX_INTERVAL
             then set_interval ACERHDF_MAX_INTERVAL d else d in
    let d := set_polling_delay (s32 (u32 (interval d * 1000))) d in
    set_prev_interval (interval d) d
  else d.

(** [acerhdf_get_ec_temp(thermal, &t)]: the zone's get_temp callback *)
Definition acerhdf_get_ec_temp (d : driver) (bus : ec_bus)
  : cres Z * driver * ec_bus :=
  let d := acerhdf_check_param d in
  let '(err, bus) := acerhdf_get_temp d bus in
  match err with
  | Err e => (Err e, d, bus)
  | Ok temp => (Ok temp, d, bus)
  end.

(** ** Mode changes *)

(** [acerhdf_revert_to_bios_mode()] *)
Definition acerhdf_revert_to_bios_mode (d : driver) (bus : ec_bus)
  : driver * ec_bus :=
  let '(d, bus) := acerhdf_change_fanstate d bus 5 in
  let d := set_kernelmode 0 d in
  let d := if thz_dev d then set_polling_delay 0 d else d in
  (d, bus).

(** ** Trip points *)

(** [enum thermal_trip_type] of the thermal core *)
Inductive thermal_trip_type : Type :=
| THERMAL_TRIP_ACTIVE
| THERMAL_TRIP_PASSIVE
| THERMAL_TRIP_HOT
| THERMAL_TRIP_CRITICAL.

Definition acerhdf_get_trip_type (d : driver) (trip : Z) : cres thermal_trip_type :=
  if trip =? 0 then Ok THERMAL_TRIP_ACTIVE
  else if trip =? 1 then Ok THERMAL_TRIP_CRITICAL
  else Err (- EINVAL).

(** [*temp = fanon - fanoff]: an [unsigned int] difference stored in an [int] *)
Definition acerhdf_get_trip_hyst (d : driver) (trip : Z) : cres Z :=
  if negb (trip =? 0) then Err (- EINVAL)
  else Ok (s32 (u32 (fanon d - fanoff d))).

(** [*temp = fanon]: an [unsigned int] stored in an [int] *)
Definition acerhdf_get_trip_temp (d : driver) (trip : Z) : cres Z :=
  if trip =? 0 then Ok (s32 (fanon d))
  else if trip =? 1 then Ok ACERHDF_TEMP_CRIT
  else Err (- EINVAL).

Definition acerhdf_get_crit_temp (d : driver) : cres Z := Ok ACERHDF_TEMP_CRIT.

(** ** The cooling device *)

Definition acerhdf_get_max_state : cres Z := Ok 11.

(** The stepped table of [acerhdf_set_cur_state] with its clamp: the
    local [state] enters with the value the governor asked for and is
    assigned in every branch. *)
Definition fan_schedule (state cur_temp : Z) : Z :=
  let state :=
    if cur_temp <? 40 then 3
    else if cur_temp <? 45 then 4
    else if cur_temp <? 48 then 5
    else if cur_temp <? 50 then 6
    else if cur_temp <? 55 then 7
    else if cur_temp <? 60 then 8
    else if cur_temp <? 65 then 9
    else if cur_temp <? 70 then 10
    else 11 in
  let state := if state <? MIN_FAN_SPEED then MIN_FAN_SPEED else state in
  state.

(** [acerhdf_set_cur_state(cdev, state)]: one tick of the control loop.
    Returns the callback's return code, the driver state and the bus. *)
Definition acerhdf_set_cur_state (d : driver) (bus : ec_bus) (state : Z)
  : Z * driver * ec_bus :=
  if kernelmode d =? 0 then (0, d, bus)
  else
    let '(err, bus) := acerhdf_get_temp d bus in
    let d := match err with
             | Ok t => set_samples (array_store (samples d) (current_sample d) t) d
             | Err _ => d
             end in
    let d := set_current_sample (s32 (current_sample d + 1)) d in
    let d := if current_sample d >? TEMPERATURE_SAMPLES - 1
             then set_current_sample 0 d else d in
    match err with
    | Err _ =>
        let '(d, bus) := acerhdf_revert_to_bios_mode d bus in
        (- EINVAL, d, bus)
    | Ok _ =>
        let cur_temp := smoothed (samples d) in
        let '(err, bus) := acerhdf_get_fanstate d bus in
        match err with
        | Err _ =>
            let '(d, bus) := acerhdf_revert_to_bios_mode d bus in
            (- EINVAL, d, bus)
        | Ok cur_state =>
            let state := fan_schedule state cur_temp in
            let '(d, bus) := acerhdf_change_fanstate d bus (s32 state) in
            (0, d, bus)
        end
    end.

(** The governor ticking the loop once per requested state, in order;
    the return codes come out oldest first. *)
Fixpoint run_ticks (d : driver) (bus : ec_bus) (reqs : list Z)
  : list Z * driver * ec_bus :=
  match reqs with
  | [] => ([], d, bus)
  | state :: reqs =>
      let '(rc, d, bus) := acerhdf_set_cur_state d bus state in
      let '(rcs, d, bus) := run_ticks d bus reqs in
      (rc :: rcs, d, bus)
  end.

(** ** Hardware identification *)

(** A C string is held as the [string] of its bytes before the
    terminating NUL. *)

(** [strlen] *)
Definition strlen (s : string) : nat := String.length s.

(** The kernel's [strncmp(cs, ct, count)]: the loop compares byte by
    byte, stops at the first difference with -1 or 1, and stops with 0
    at the terminator or when [count] bytes were equal. *)
Fixpoint strncmp (cs ct : string) (count : nat) {struct count} : Z :=
  match count with
  | O => 0
  | S count =>
      match cs, ct with
      | EmptyString, EmptyString => 0
      | EmptyString, String _ _ => -1
      | String _ _, EmptyString => 1
      | String c1 cs, String c2 ct =>
          if Ascii.eqb c1 c2 then strncmp cs ct count
          else if (nat_of_ascii c1 <? nat_of_ascii c2)%nat then -1 else 1
      end
  end.

(** [str_starts_with(str, start)]: checks if str begins with start *)
Definition str_starts_with (str start : string) : bool :=
  let str_len := strlen str in
  let start_len := strlen start in
  (start_len <=? str_len)%nat && (strncmp str start start_len =? 0).

(** [bios_tbl]: the supported machines, closed by the row with the
    empty vendor. *)
Definition bios_tbl : list bios_settings :=
  [ mkBios "Acer" "Predator PH517-51" "V1.06" 0x4f 0x58 (mkFancmd 0x14 0x04) 1;
    mkBios "" "" "" 0 0 (mkFancmd 0 0) 0 ].

(** [s[0]] is not NUL *)
Definition nonempty (s : string) : bool :=
  match s with EmptyString => false | String _ _ => true end.

(** The search loop of [acerhdf_check_hardware]:
    [for (bt = tbl; bt->vendor[0]; bt++) if (...) { found = 1; break; }].
    [None] is [found == 0].  The table ends with the empty-vendor row,
    so the walk never reaches the end of the list. *)
Fixpoint search_bios (tbl : list bios_settings) (vendor product version : string)
  : option bios_settings :=
  match tbl with
  | [] => None
  | bt :: tbl =>
      if nonempty (bs_vendor bt) then
        if str_starts_with vendor (bs_vendor bt)
           && str_starts_with product (bs_product bt)
           && str_starts_with version (bs_version bt)
        then Some bt
        else search_bios tbl vendor product version
      else None
  end.

(** What the probe reads besides the driver state: the three DMI
    strings ([None]: [dmi_get_system_info] gave NULL) and the
    probe-time module parameters. *)
Record probe_env : Type := mkProbe {
  dmi_sys_vendor : option string;
  dmi_bios_version : option string;
  dmi_product_name : option string;
  list_supported : Z;
  force_bios : string;
  force_product : string
}.

(** [acerhdf_check_hardware()], over the table [tbl] *)
Definition acerhdf_check_hardware (tbl : list bios_settings) (env : probe_env)
  (d : driver) : Z * driver :=
  match dmi_sys_vendor env, dmi_bios_version env, dmi_product_name env with
  | Some vendor, Some version, Some product =>
      if negb (list_supported env =? 0) then (- ECANCELED, d)
      else
        let '(version, d) :=
          if nonempty (force_bios env)
          then (force_bios env, set_kernelmode 0 d) else (version, d) in
        let '(product, d) :=
          if nonempty (force_product env)
          then (force_product env, set_kernelmode 0 d) else (product, d) in
        let d := set_samples (replicate (Z.to_nat TEMPERATURE_SAMPLES) 0) d in
        match search_bios tbl vendor product version with
        | None => (- EINVAL, d)
        | Some bt =>
            (0, set_ctrl_cfg (mkCtrl (bs_fanreg bt) (bs_tempreg bt)
                                     (bs_cmd bt) (bs_mcmd_enable bt)) d)
        end
  | _, _, _ => (- EINVAL, d)
  end.

(** [acerhdf_init()].  The platform and thermal registrations belong to
    the host frameworks; [register] stands for the two of them with the
    unwinding on failure, and runs only after the hardware check
    succeeded. *)
Definition acerhdf_init (tbl : list bios_settings) (env : probe_env)
  (register : driver -> Z * driver) (d : driver) : Z * driver :=
  let '(err, d) := acerhdf_check_hardware tbl env d in
  if negb (err =? 0) then (err, d) else register d.

(** The driver as the module loader leaves it before [acerhdf_init]:
    the initialisers of the file-scope variables. *)
Definition driver_at_load : driver :=
  mkDriver 1 1 30 53000 (replicate (Z.to_nat TEMPERATURE_SAMPLES) 0) 0
           ACERHDF_FAN_AUTO 0 (mkCtrl 0 0 (mkFancmd 0 0) 0) (mkZone 0) false.

(** ** The specification's own wording, for comparison *)

Module Spec.

(** The table of the fan schedule, row by row. *)
Definition table (t : Z) : Z :=
  if t <? 40 then 3
  else if (40 <=? t) && (t <? 45) then 4
  else if (45 <=? t) && (t <? 48) then 5
  else if (48 <=? t) && (t <? 50) then 6
  else if (50 <=? t) && (t <? 55) then 7
  else if (55 <=? t) && (t <? 60) then 8
  else if (60 <=? t) && (t <? 65) then 9
  else if (65 <=? t) && (t <? 70) then 10
  else 11.

(** "clamp s = max(s, MIN_FAN_SPEED = 4)" *)
Definition schedule (t : Z) : Z := Z.max (table t) 4.

(** "observed string length >= row string length and first N bytes
    equal", N the length of the row's string *)
Definition is_prefix (row observed : string) : bool :=
  let N := String.length row in
  (N <=? String.length observed)%nat &&
  bool_decide (take N (list_ascii_of_string observed)
               = take N (list_ascii_of_string row)).

(** a row matches when its three strings are prefixes of the observed ones *)
Definition row_matches (vendor product version : string) (bt : bios_settings)
  : bool :=
  is_prefix (bs_vendor bt) vendor &&
  is_prefix (bs_product bt) product &&
  is_prefix (bs_version bt) version.

(** the rows in declaration order up to the sentinel (the row with
    the empty vendor), which closes the table *)
Fixpoint rows_before_sentinel (tbl : list bios_settings) : list bios_settings :=
  match tbl with
  | [] => []
  | bt :: tbl =>
      if bool_decide (bs_vendor bt = EmptyString) then []
      else bt :: rows_before_sentinel tbl
  end.

(** "the first row whose vendor/product/version are all prefixes of
    the observed strings wins" *)
Definition first_match (tbl : list bios_settings)
  (vendor product version : string) : option bios_settings :=
  List.find (row_matches vendor product version) (rows_before_sentinel tbl).

End Spec.

(** Projections of what a tick, or a run of ticks, returns. *)
Definition tick_rc {A} (r : A * driver * ec_bus) : A := fst (fst r).
Definition tick_driver {A} (r : A * driver * ec_bus) : driver := snd (fst r).
Definition tick_bus {A} (r : A * driver * ec_bus) : ec_bus := snd r.

(** [current_sample++; if (current_sample > TEMPERATURE_SAMPLES - 1) current_sample = 0;] *)
Definition next_cursor (c : Z) : Z :=
  let c := s32 (c + 1) in
  if c >? TEMPERATURE_SAMPLES - 1 then 0 else c.

(** What a tick with a good temperature read [v] does to the ring and
    its cursor, and [n] such ticks in a row. *)
Definition ring_push (v : Z) (r : list Z * Z) : list Z * Z :=
  (array_store (fst r) (snd r) v, next_cursor (snd r)).

Fixpoint ring_pushes (n : nat) (v : Z) (r : list Z * Z) : list Z * Z :=
  match n with
  | O => r
  | S n => ring_pushes n v (ring_push v r)
  end.

(** ** Example machines *)

(** The probed Predator during [thermal_zone_device_register]: the core
    already ticks the loop, the zone polls every second, and the global
    [thz_dev] is not assigned yet. *)
Definition driver_registering : driver :=
  mkDriver 1 1 30 53000 (replicate 10%nat 0) 0 ACERHDF_FAN_AUTO 0
           (mkCtrl 0x4f 0x58 (mkFancmd 0x14 0x04) 1) (mkZone 1000) false.

(** The same machine once registration is over. *)
Definition driver_running : driver :=
  mkDriver 1 1 30 53000 (replicate 10%nat 0) 0 ACERHDF_FAN_AUTO 0
           (mkCtrl 0x4f 0x58 (mkFancmd 0x14 0x04) 1) (mkZone 1000) true.

(** The same machine after control went back to the BIOS. *)
Definition driver_bios : driver :=
  mkDriver 0 1 30 53000 (replicate 10%nat 0) 0 5 0
           (mkCtrl 0x4f 0x58 (mkFancmd 0x14 0x04) 1) (mkZone 0) true.

(** An EC that fails every read. *)
Definition ec_dead : ec_bus := mkBus (fun _ _ => None) [].

(** An EC that answers every read with the byte [b]. *)
Definition ec_steady (b : Z) : ec_bus := mkBus (fun _ _ => Some b) [].

(** ** The remaining callbacks *)

(** [enum thermal_device_mode] of the thermal core *)
Inductive thermal_device_mode : Type :=
| THERMAL_DEVICE_DISABLED
| THERMAL_DEVICE_ENABLED.

(** [acerhdf_get_cur_state(cdev, &state)]: a live read of the fan register *)
Definition acerhdf_get_cur_state (d : driver) (bus : ec_bus) : cres Z * ec_bus :=
  let '(err, bus) := acerhdf_get_fanstate d bus in
  match err with
  | Err e => (Err e, bus)
  | Ok tmp => (Ok tmp, bus)
  end.

(** [acerhdf_get_mode(thermal, &mode)] *)
Definition acerhdf_get_mode (d : driver) : cres thermal_device_mode :=
  Ok (if negb (kernelmode d =? 0) then THERMAL_DEVICE_ENABLED
      else THERMAL_DEVICE_DISABLED).

(** [acerhdf_enable_kernelmode()].  It stores through [thz_dev] without
    a test: [None] is the NULL dereference.  [update] stands for the
    thermal core's [thermal_zone_device_update], which polls the zone
    and may call back into the driver. *)
Definition acerhdf_enable_kernelmode
  (update : driver -> ec_bus -> driver * ec_bus) (d : driver) (bus : ec_bus)
  : option (driver * ec_bus) :=
  let d := set_kernelmode 1 d in
  if thz_dev d then
    let d := set_polling_delay (s32 (u32 (interval d * 1000))) d in
    Some (update d bus)
  else None.

(** [acerhdf_set_mode(thermal, mode)]; the return code is always 0. *)
Definition acerhdf_set_mode
  (update : driver -> ec_bus -> driver * ec_bus) (d : driver) (bus : ec_bus)
  (mode : thermal_device_mode) : option (Z * driver * ec_bus) :=
  match mode with
  | THERMAL_DEVICE_DISABLED =>
      if negb (kernelmode d =? 0) then
        let '(d, bus) := acerhdf_revert_to_bios_mode d bus in Some (0, d, bus)
      else Some (0, d, bus)
  | THERMAL_DEVICE_ENABLED =>
      if kernelmode d =? 0 then
        match acerhdf_enable_kernelmode update d bus with
        | Some (d, bus) => Some (0, d, bus)
        | None => None
        end
      else Some (0, d, bus)
  end.

(** [acerhdf_suspend(dev)] *)
Definition acerhdf_suspend (d : driver) (bus : ec_bus) : Z * driver * ec_bus :=
  let '(d, bus) :=
    if negb (kernelmode d =? 0) then acerhdf_change_fanstate d bus 5
    else (d, bus) in
  (0, d, bus).

(** The ring as the loop keeps it: ten slots, each a byte read from the
    EC (or the 0 of the initial fill), and the cursor inside the array. *)
Record ring_ok (d : driver) : Prop := mkRingOk {
  ring_length : length (samples d) = 10%nat;
  ring_bytes : Forall is_u8 (samples d);
  ring_cursor : 0 <= current_sample d < TEMPERATURE_SAMPLES
}.

(** the plain sum of a list *)
Definition total (a : list Z) : Z := fold_right Z.add 0 a.

(** the writes of a log that a control loop may make: a fan state of
    at least [MIN_FAN_SPEED] and at most 11, to the fan register *)
Definition fan_write_ok (cfg : ctrl_settings) (e : ec_event) : Prop :=
  match e with
  | EcWrite reg val => reg = fanreg cfg /\ MIN_FAN_SPEED <= val <= 11
  | EcRead _ _ => True
  end.

(** the non-zero codes among the return codes of a run *)
Definition errors (rcs : list Z) : list Z :=
  List.filter (fun rc => negb (rc =? 0)) rcs.

(** The EC answers the next ticks with the temperatures [vs], one per
    tick, and lets every fan-state read succeed: tick number [k] of a
    run without failures starts at transaction [3 * k] from now. *)
Definition reads_give (bus : ec_bus) (cfg : ctrl_settings) (vs : list Z) : Prop :=
  forall (k : nat) (v : Z),
    vs !! k = Some v ->
    ec_resp bus (length (ec_log bus) + 3 * k) (tempreg cfg) = Some v /\
    ec_resp bus (S (length (ec_log bus) + 3 * k)) (fanreg cfg) <> None.

(** the ring and its cursor after good ticks that read [ws] *)
Definition ring_fill (ws : list Z) (r : list Z * Z) : list Z * Z :=
  fold_left (fun r w => ring_push w r) ws r.

(** An EC whose temperature climbs by one degree per tick from [t0]. *)
Definition ec_climbing (t0 : Z) : ec_bus :=
  mkBus (fun n _ => Some (t0 + Z.of_nat (n / 3))) [].

(** * Facts *)

Module CIntFacts.

Lemma u8_range v : is_u8 (u8 v).
Proof. unfold is_u8, u8. apply Z.mod_pos_bound. lia. Qed.

Lemma u8_small v : is_u8 v -> u8 v = v.
Proof. unfold is_u8, u8. intros H. apply Z.mod_small. lia. Qed.

Lemma u32_small v : is_u32 v -> u32 v = v.
Proof. unfold is_u32, u32. intros H. apply Z.mod_small. lia. Qed.

Lemma s32_small v : is_s32 v -> s32 v = v.
Proof.
  unfold is_s32, s32. intros H.
  rewrite Z.mod_small; lia.
Qed.

Lemma s32_range v : is_s32 (s32 v).
Proof.
  unfold is_s32, s32.
  pose proof (Z.mod_pos_bound (v + 2 ^ 31) (2 ^ 32)). lia.
Qed.

(** an [unsigned int] at or above 2^31 reads as a negative [int] *)
Lemma s32_high v : 2 ^ 31 <= v < 2 ^ 32 -> s32 v = v - 2 ^ 32.
Proof.
  unfold s32. intros H.
  replace (v + 2 ^ 31) with ((v - 2 ^ 31) + 1 * 2 ^ 32) by lia.
  rewrite Z.mod_add by lia. rewrite Z.mod_small; lia.
Qed.

(** unsigned subtraction below zero wraps by 2^32 *)
Lemma u32_sub_wrap a b :
  is_u32 a -> is_u32 b -> a < b -> u32 (a - b) = a - b + 2 ^ 32.
Proof.
  unfold is_u32, u32. intros Ha Hb Hlt.
  rewrite <- (Z.mod_add (a - b) 1 (2 ^ 32)) by lia.
  rewrite Z.mod_small; lia.
Qed.

End CIntFacts.
Import CIntFacts.

(** ** The fan schedule *)

Ltac schedule_cases :=
  unfold fan_schedule, Spec.schedule, Spec.table, MIN_FAN_SPEED;
  repeat (match goal with
          | |- context [?a <? ?b] => is_var a; destruct (Z.ltb_spec a b)
          | |- context [?a <=? ?b] => is_var b; destruct (Z.leb_spec a b)
          end; cbn [andb]; try lia);
  cbn; try lia.

Lemma fan_schedule_spec (state t : Z) : fan_schedule state t = Spec.schedule t.
Proof. schedule_cases. Qed.

Lemma fan_schedule_range (state t : Z) : 4 <= fan_schedule state t <= 11.
Proof. schedule_cases. Qed.

Lemma fan_schedule_cases (state t : Z) :
  (t < 45 /\ fan_schedule state t = 4) \/
  (45 <= t < 48 /\ fan_schedule state t = 5) \/
  (48 <= t < 50 /\ fan_schedule state t = 6) \/
  (50 <= t < 55 /\ fan_schedule state t = 7) \/
  (55 <= t < 60 /\ fan_schedule state t = 8) \/
  (60 <= t < 65 /\ fan_schedule state t = 9) \/
  (65 <= t < 70 /\ fan_schedule state t = 10) \/
  (70 <= t /\ fan_schedule state t = 11).
Proof. schedule_cases. Qed.

(** C2: for every smoothed temperature the stepped table of the loop is
    the specification's table followed by the clamp to at least
    MIN_FAN_SPEED = 4, whatever state the governor asked for; and the
    temperatures 39, 40, 47, 48, 69, 70 give 4, 4, 5, 6, 10, 11. *)
Theorem fan_schedule_is_spec_table :
  (forall state t,
      fan_schedule state t = Z.max (Spec.table t) MIN_FAN_SPEED) /\
  (forall state,
      List.map (fan_schedule state) [39; 40; 47; 48; 69; 70]
      = [4; 4; 5; 6; 10; 11]).
Proof.
  split.
  - intros state t. apply fan_schedule_spec.
  - intros state. reflexivity.
Qed.

(** C3: the scheduled state always lies in [4, 11], and a higher
    smoothed temperature never schedules a lower state. *)
Theorem fan_schedule_bounded_monotone :
  (forall state t, MIN_FAN_SPEED <= fan_schedule state t <= 11) /\
  (forall state1 state2 t1 t2,
      t1 <= t2 -> fan_schedule state1 t1 <= fan_schedule state2 t2).
Proof.
  split.
  - intros state t. apply fan_schedule_range.
  - intros state1 state2 t1 t2 Hle.
    pose proof (fan_schedule_cases state1 t1) as H1.
    pose proof (fan_schedule_cases state2 t2) as H2.
    lia.
Qed.

Lemma fan_schedule_bounded_monotone_witness :
  39 <= 70 /\ fan_schedule 0 39 <= fan_schedule 0 70.
Proof.
  split; [lia | apply (proj2 fan_schedule_bounded_monotone); lia].
Defined.

(** ** One tick of the control loop *)

Ltac driver_fields :=
  unfold set_samples, set_current_sample, set_fanstate, set_kernelmode,
    set_polling_delay, set_interval, set_fanon, set_prev_interval, set_ctrl_cfg;
  cbn [kernelmode interval fanon fanoff samples current_sample fanstate
       prev_interval ctrl_cfg zone thz_dev ec_resp ec_log polling_delay].

Lemma length_log_snoc (log : list ec_event) e : length (log ++ [e]) = S (length log).
Proof. rewrite length_app. cbn. lia. Qed.

Lemma tick_bios d bus state :
  kernelmode d = 0 -> acerhdf_set_cur_state d bus state = (0, d, bus).
Proof. intros H. unfold acerhdf_set_cur_state. rewrite H. reflexivity. Qed.

Lemma tick_temp_fails d bus state :
  kernelmode d <> 0 ->
  ec_resp bus (length (ec_log bus)) (tempreg (ctrl_cfg d)) = None ->
  acerhdf_set_cur_state d bus state =
  (- EINVAL,
   mkDriver 0 (interval d) (fanon d) (fanoff d) (samples d)
            (next_cursor (current_sample d)) 5 (prev_interval d) (ctrl_cfg d)
            (if thz_dev d then mkZone 0 else zone d) (thz_dev d),
   mkBus (ec_resp bus)
         (ec_log bus ++ [EcRead (tempreg (ctrl_cfg d)) None;
                         EcWrite (fanreg (ctrl_cfg d)) 5])).
Proof.
  intros Hk Hr. unfold acerhdf_set_cur_state.
  apply Z.eqb_neq in Hk. rewrite Hk.
  unfold acerhdf_get_temp, ec_read. rewrite Hr. cbn [option_map].
  unfold acerhdf_revert_to_bios_mode, acerhdf_change_fanstate, ec_write, next_cursor.
  driver_fields.
  destruct (s32 (current_sample d + 1) >? TEMPERATURE_SAMPLES - 1);
    driver_fields; destruct (thz_dev d); rewrite <- app_assoc; reflexivity.
Qed.

Lemma tick_fan_fails d bus state v :
  kernelmode d <> 0 ->
  ec_resp bus (length (ec_log bus)) (tempreg (ctrl_cfg d)) = Some v ->
  ec_resp bus (S (length (ec_log bus))) (fanreg (ctrl_cfg d)) = None ->
  acerhdf_set_cur_state d bus state =
  (- EINVAL,
   mkDriver 0 (interval d) (fanon d) (fanoff d)
            (array_store (samples d) (current_sample d) (u8 v))
            (next_cursor (current_sample d)) 5 (prev_interval d) (ctrl_cfg d)
            (if thz_dev d then mkZone 0 else zone d) (thz_dev d),
   mkBus (ec_resp bus)
         (ec_log bus ++ [EcRead (tempreg (ctrl_cfg d)) (Some (u8 v));
                         EcRead (fanreg (ctrl_cfg d)) None;
                         EcWrite (fanreg (ctrl_cfg d)) 5])).
Proof.
  intros Hk Hr Hf. unfold acerhdf_set_cur_state.
  apply Z.eqb_neq in Hk. rewrite Hk.
  unfold acerhdf_get_temp, ec_read. rewrite Hr. cbn [option_map].
  unfold acerhdf_get_fanstate, ec_read, next_cursor. driver_fields.
  destruct (s32 (current_sample d + 1) >? TEMPERATURE_SAMPLES - 1);
    driver_fields; rewrite length_log_snoc, Hf; cbn [option_map];
    unfold acerhdf_revert_to_bios_mode, acerhdf_change_fanstate, ec_write;
    driver_fields; destruct (thz_dev d); rewrite <- !app_assoc; reflexivity.
Qed.

Lemma tick_ok d bus state v f :
  kernelmode d <> 0 ->
  ec_resp bus (length (ec_log bus)) (tempreg (ctrl_cfg d)) = Some v ->
  ec_resp bus (S (length (ec_log bus))) (fanreg (ctrl_cfg d)) = Some f ->
  acerhdf_set_cur_state d bus state =
  let smp := array_store (samples d) (current_sample d) (u8 v) in
  let s := fan_schedule state (smoothed smp) in
  (0,
   mkDriver (kernelmode d) (interval d) (fanon d) (fanoff d) smp
            (next_cursor (current_sample d)) s (prev_interval d) (ctrl_cfg d)
            (zone d) (thz_dev d),
   mkBus (ec_resp bus)
         (ec_log bus ++ [EcRead (tempreg (ctrl_cfg d)) (Some (u8 v));
                         EcRead (fanreg (ctrl_cfg d)) (Some (u8 f));
                         EcWrite (fanreg (ctrl_cfg d)) s])).
Proof.
  intros Hk Hr Hf. unfold acerhdf_set_cur_state.
  apply Z.eqb_neq in Hk. rewrite Hk.
  unfold acerhdf_get_temp, ec_read. rewrite Hr. cbn [option_map].
  unfold acerhdf_get_fanstate, ec_read, next_cursor. driver_fields.
  set (smp := array_store (samples d) (current_sample d) (u8 v)).
  pose proof (fan_schedule_range state (smoothed smp)) as Hs.
  assert (Hs32 : s32 (fan_schedule state (smoothed smp)) = fan_schedule state (smoothed smp))
    by (apply s32_small; unfold is_s32; lia).
  destruct (s32 (current_sample d + 1) >? TEMPERATURE_SAMPLES - 1);
    driver_fields; rewrite length_log_snoc, Hf; cbn [option_map];
    unfold acerhdf_change_fanstate, ec_write; driver_fields;
    rewrite Hs32, (u32_small (fan_schedule state (smoothed smp))),
      (u8_small (fan_schedule state (smoothed smp)))
      by (unfold is_u32, is_u8; lia);
    rewrite <- !app_assoc; reflexivity.
Qed.

Lemma tick_reads_ok d bus state v :
  kernelmode d <> 0 ->
  ec_resp bus (length (ec_log bus)) (tempreg (ctrl_cfg d)) = Some v ->
  ec_resp bus (S (length (ec_log bus))) (fanreg (ctrl_cfg d)) <> None ->
  exists fan,
    acerhdf_set_cur_state d bus state =
    let smp := array_store (samples d) (current_sample d) (u8 v) in
    let s := fan_schedule state (smoothed smp) in
    (0,
     mkDriver (kernelmode d) (interval d) (fanon d) (fanoff d) smp
              (next_cursor (current_sample d)) s (prev_interval d) (ctrl_cfg d)
              (zone d) (thz_dev d),
     mkBus (ec_resp bus)
           (ec_log bus ++ [EcRead (tempreg (ctrl_cfg d)) (Some (u8 v));
                           EcRead (fanreg (ctrl_cfg d)) (Some fan);
                           EcWrite (fanreg (ctrl_cfg d)) s])).
Proof.
  intros Hk Hr Hf.
  destruct (ec_resp bus (S (length (ec_log bus))) (fanreg (ctrl_cfg d)))
    as [f|] eqn:Ef; [|congruence].
  exists (u8 f). now apply tick_ok.
Qed.

Lemma run_ticks_bios d bus reqs :
  kernelmode d = 0 ->
  run_ticks d bus reqs = (replicate (length reqs) 0, d, bus).
Proof.
  intros Hk. induction reqs as [|state reqs IH]; [reflexivity|].
  cbn [run_ticks]. rewrite tick_bios by exact Hk. rewrite IH. reflexivity.
Qed.

Lemma fan_schedule_ignores_state (s1 s2 t : Z) :
  fan_schedule s1 t = fan_schedule s2 t.
Proof. reflexivity. Qed.

Lemma last_three (log : list ec_event) a b c : last (log ++ [a; b; c]) = Some c.
Proof.
  change [a; b; c] with ([a; b] ++ [c]). rewrite app_assoc. apply last_snoc.
Qed.

Lemma run_ticks_steady reqs : forall d bus v,
  kernelmode d <> 0 ->
  (forall n, ec_resp bus n (tempreg (ctrl_cfg d)) = Some v) ->
  (forall n, ec_resp bus n (fanreg (ctrl_cfg d)) <> None) ->
  let r := run_ticks d bus reqs in
  tick_rc r = replicate (length reqs) 0 /\
  (samples (tick_driver r), current_sample (tick_driver r))
  = ring_pushes (length reqs) (u8 v) (samples d, current_sample d) /\
  (reqs <> [] ->
   fanstate (tick_driver r) = fan_schedule 0 (smoothed (samples (tick_driver r))) /\
   last (ec_log (tick_bus r))
   = Some (EcWrite (fanreg (ctrl_cfg d))
                   (fan_schedule 0 (smoothed (samples (tick_driver r)))))).
Proof.
  induction reqs as [|state reqs IH]; intros d bus v Hk Ht Hf.
  - cbn [run_ticks length replicate ring_pushes]. split; [reflexivity|]. split; [reflexivity|]. congruence.
  - cbn [run_ticks length].
    destruct (tick_reads_ok d bus state v Hk (Ht _) (Hf _)) as [fan ->].
    cbv zeta.
    set (smp := array_store (samples d) (current_sample d) (u8 v)).
    set (d1 := mkDriver _ _ _ _ _ _ _ _ _ _ _).
    set (bus1 := mkBus _ _).
    specialize (IH d1 bus1 v Hk Ht Hf). cbv zeta in IH.
    destruct (run_ticks d1 bus1 reqs) as [[rcs d'] bus'] eqn:Er.
    unfold tick_rc, tick_driver, tick_bus in *. cbn [fst snd] in *.
    destruct IH as (Hrc & Hring & Hlast). rewrite ?Er. cbn [fst snd].
    split; [|split].
    + cbn [replicate]. now rewrite Hrc.
    + exact Hring.
    + intros _. destruct reqs as [|s2 reqs].
      * cbn [run_ticks] in Er. injection Er as <- <- <-. subst d1 bus1.
        cbn [fanstate samples ec_log ctrl_cfg].
        rewrite (fan_schedule_ignores_state 0 state). split; [reflexivity|].
        apply last_three.
      * apply Hlast. discriminate.
Qed.

(** ** The claims about the control loop *)

(** C4: the state the governor asks for never influences a tick: from
    the same driver state and the same EC, two ticks with different
    requested states return the same code, leave the same driver state
    and leave the same EC log, hence write the same byte to the fan
    register. *)
Theorem governor_request_is_ignored (d : driver) (bus : ec_bus) (state1 state2 : Z) :
  acerhdf_set_cur_state d bus state1 = acerhdf_set_cur_state d bus state2 /\
  ec_writes (tick_bus (acerhdf_set_cur_state d bus state1))
  = ec_writes (tick_bus (acerhdf_set_cur_state d bus state2)).
Proof.
  assert (E : acerhdf_set_cur_state d bus state1
              = acerhdf_set_cur_state d bus state2).
  { unfold acerhdf_set_cur_state.
    destruct (kernelmode d =? 0); [reflexivity|].
    destruct (acerhdf_get_temp d bus) as [[t|e] bus1]; [|reflexivity].
    match goal with
    | |- context [acerhdf_get_fanstate ?d1 bus1] =>
        destruct (acerhdf_get_fanstate d1 bus1) as [[cur_state|e] bus2]
    end; [|reflexivity].
    now rewrite (fan_schedule_ignores_state state1 state2). }
  split; [exact E | now rewrite E].
Qed.

(** C6: outside KERNEL mode a tick returns 0, does no transaction on
    the EC (no read, no write), and leaves the whole driver state, the
    sample ring and its cursor included, as it was. *)
Theorem tick_outside_kernel_mode_is_noop (d : driver) (bus : ec_bus) (state : Z) :
  kernelmode d = 0 ->
  let r := acerhdf_set_cur_state d bus state in
  tick_rc r = 0 /\ tick_driver r = d /\ tick_bus r = bus /\
  ec_reads (tick_bus r) = ec_reads bus /\
  ec_writes (tick_bus r) = ec_writes bus /\
  samples (tick_driver r) = samples d /\
  current_sample (tick_driver r) = current_sample d.
Proof.
  intros Hk r. subst r. rewrite (tick_bios d bus state Hk).
  repeat split; reflexivity.
Qed.

Lemma tick_outside_kernel_mode_is_noop_witness :
  kernelmode driver_bios = 0 /\
  tick_driver (acerhdf_set_cur_state driver_bios (ec_steady 70) 11) = driver_bios.
Proof.
  split; [reflexivity|].
  exact (proj1 (proj2 (tick_outside_kernel_mode_is_noop
                         driver_bios (ec_steady 70) 11 eq_refl))).
Defined.

Lemma no_writes_among_reads (reads : list ec_event) :
  Forall (fun e => is_write e = false) reads -> List.filter is_write reads = [].
Proof.
  induction 1 as [|e reads He _ IH]; [reflexivity|].
  cbn [List.filter]. rewrite He. exact IH.
Qed.

Lemma tick_failure_shape d bus state :
  kernelmode d <> 0 ->
  ec_resp bus (length (ec_log bus)) (tempreg (ctrl_cfg d)) = None \/
  ec_resp bus (S (length (ec_log bus))) (fanreg (ctrl_cfg d)) = None ->
  exists smp reads,
    Forall (fun e => is_write e = false) reads /\
    acerhdf_set_cur_state d bus state =
    (- EINVAL,
     mkDriver 0 (interval d) (fanon d) (fanoff d) smp
              (next_cursor (current_sample d)) 5 (prev_interval d) (ctrl_cfg d)
              (if thz_dev d then mkZone 0 else zone d) (thz_dev d),
     mkBus (ec_resp bus)
           ((ec_log bus ++ reads) ++ [EcWrite (fanreg (ctrl_cfg d)) 5])).
Proof.
  intros Hk Hfail.
  destruct (ec_resp bus (length (ec_log bus)) (tempreg (ctrl_cfg d)))
    as [v|] eqn:Et.
  - destruct Hfail as [Hfail|Hfail]; [discriminate|].
    exists (array_store (samples d) (current_sample d) (u8 v)),
      [EcRead (tempreg (ctrl_cfg d)) (Some (u8 v));
       EcRead (fanreg (ctrl_cfg d)) None].
    split; [repeat constructor|].
    rewrite (tick_fan_fails d bus state v Hk Et Hfail).
    rewrite <- app_assoc. reflexivity.
  - exists (samples d), [EcRead (tempreg (ctrl_cfg d)) None].
    split; [repeat constructor|].
    rewrite (tick_temp_fails d bus state Hk Et).
    rewrite <- app_assoc. reflexivity.
Qed.

(** C1, amended: when in KERNEL mode the temperature read or the
    fan-state read of a tick fails, the tick returns -EINVAL, writes 5
    to the fan register as its only write, and leaves the mode at BIOS;
    the zone's polling delay becomes 0 when the global [thz_dev] is
    assigned and keeps its value when it is still NULL; every later tick
    is a no-op returning 0. *)
Theorem tick_ec_failure_hands_over_to_bios (d : driver) (bus : ec_bus) (state : Z) :
  kernelmode d <> 0 ->
  ec_resp bus (length (ec_log bus)) (tempreg (ctrl_cfg d)) = None \/
  ec_resp bus (S (length (ec_log bus))) (fanreg (ctrl_cfg d)) = None ->
  let r := acerhdf_set_cur_state d bus state in
  tick_rc r = - EINVAL /\ tick_rc r <> 0 /\
  ec_writes (tick_bus r) = ec_writes bus ++ [EcWrite (fanreg (ctrl_cfg d)) 5] /\
  last (ec_log (tick_bus r)) = Some (EcWrite (fanreg (ctrl_cfg d)) 5) /\
  fanstate (tick_driver r) = 5 /\
  kernelmode (tick_driver r) = 0 /\
  polling_delay (zone (tick_driver r))
  = (if thz_dev d then 0 else polling_delay (zone d)) /\
  forall reqs,
    run_ticks (tick_driver r) (tick_bus r) reqs
    = (replicate (length reqs) 0, tick_driver r, tick_bus r).
Proof.
  intros Hk Hfail r.
  destruct (tick_failure_shape d bus state Hk Hfail) as (smp & reads & Hreads & E).
  subst r. rewrite E. unfold tick_rc, tick_driver, tick_bus, ec_writes.
  cbn [fst snd ec_log kernelmode fanstate zone].
  repeat split.
  - discriminate.
  - rewrite !List.filter_app. cbn [List.filter is_write].
    rewrite (no_writes_among_reads reads Hreads). now rewrite app_nil_r.
  - apply last_snoc.
  - now destruct (thz_dev d).
  - intros reqs. now apply run_ticks_bios.
Qed.

Lemma tick_ec_failure_hands_over_to_bios_witness :
  kernelmode driver_running <> 0 /\
  (ec_resp ec_dead (length (ec_log ec_dead)) (tempreg (ctrl_cfg driver_running)) = None \/
   ec_resp ec_dead (S (length (ec_log ec_dead))) (fanreg (ctrl_cfg driver_running)) = None) /\
  kernelmode (tick_driver (acerhdf_set_cur_state driver_running ec_dead 0)) = 0 /\
  polling_delay (zone (tick_driver (acerhdf_set_cur_state driver_running ec_dead 0))) = 0.
Proof.
  assert (Hk : kernelmode driver_running <> 0) by discriminate.
  assert (Hf : ec_resp ec_dead (length (ec_log ec_dead))
                       (tempreg (ctrl_cfg driver_running)) = None \/
               ec_resp ec_dead (S (length (ec_log ec_dead)))
                       (fanreg (ctrl_cfg driver_running)) = None)
    by (left; reflexivity).
  pose proof (tick_ec_failure_hands_over_to_bios driver_running ec_dead 0 Hk Hf) as H.
  cbv zeta in H.
  destruct H as (_ & _ & _ & _ & _ & Hmode & Hpoll & _).
  split; [exact Hk|]. split; [exact Hf|]. split; [exact Hmode | exact Hpoll].
Defined.

(** C1 as stated fails: a tick that runs while the thermal zone is
    still being registered ([thz_dev] is NULL) and whose temperature
    read fails leaves the zone's polling delay at 1000 ms, not 0. *)
Lemma tick_ec_failure_polling_counterexample :
  kernelmode driver_registering <> 0 /\
  ec_resp ec_dead (length (ec_log ec_dead))
          (tempreg (ctrl_cfg driver_registering)) = None /\
  polling_delay (zone (tick_driver
    (acerhdf_set_cur_state driver_registering ec_dead 0))) = 1000 /\
  polling_delay (zone (tick_driver
    (acerhdf_set_cur_state driver_registering ec_dead 0))) <> 0.
Proof.
  split; [discriminate|]. split; [reflexivity|].
  split; [vm_compute; reflexivity | vm_compute; discriminate].
Qed.

(** ** Cold start *)

Lemma cursor_cases (c : Z) :
  0 <= c < TEMPERATURE_SAMPLES ->
  c = 0 \/ c = 1 \/ c = 2 \/ c = 3 \/ c = 4 \/
  c = 5 \/ c = 6 \/ c = 7 \/ c = 8 \/ c = 9.
Proof. unfold TEMPERATURE_SAMPLES. lia. Qed.

Ltac each_cursor H :=
  apply cursor_cases in H;
  repeat (destruct H as [H|H]; [subst; vm_compute; reflexivity|]);
  subst; vm_compute; reflexivity.

Lemma cold_ring_first (c : Z) :
  0 <= c < TEMPERATURE_SAMPLES ->
  smoothed (array_store (replicate 10 0) c (u8 70)) = 7.
Proof. intros H. each_cursor H. Qed.

Lemma cold_ring_tenth (c : Z) :
  0 <= c < TEMPERATURE_SAMPLES ->
  ring_pushes 10 (u8 70) (replicate 10 0, c) = (replicate 10 70, c).
Proof. intros H. each_cursor H. Qed.

(** C5: from a zero-filled ring, with every temperature read giving 70
    and every fan-state read succeeding, the first KERNEL-mode tick
    smooths to (9*0 + 70)/10 = 7 and writes fan state 4; the tenth tick
    in a row finds the ring full of 70, smooths to 70 and writes 11. *)
Theorem cold_start_ramp (d : driver) (bus : ec_bus) (req : Z) (reqs : list Z) :
  kernelmode d <> 0 ->
  samples d = replicate 10 0 ->
  0 <= current_sample d < TEMPERATURE_SAMPLES ->
  (forall n, ec_resp bus n (tempreg (ctrl_cfg d)) = Some 70) ->
  (forall n, ec_resp bus n (fanreg (ctrl_cfg d)) <> None) ->
  length reqs = 9%nat ->
  let first := acerhdf_set_cur_state d bus req in
  let tenth := run_ticks d bus (req :: reqs) in
  (tick_rc first = 0 /\
   smoothed (samples (tick_driver first)) = 7 /\
   fanstate (tick_driver first) = 4 /\
   last (ec_log (tick_bus first)) = Some (EcWrite (fanreg (ctrl_cfg d)) 4)) /\
  (tick_rc tenth = replicate 10 0 /\
   samples (tick_driver tenth) = replicate 10 70 /\
   smoothed (samples (tick_driver tenth)) = 70 /\
   fanstate (tick_driver tenth) = 11 /\
   last (ec_log (tick_bus tenth)) = Some (EcWrite (fanreg (ctrl_cfg d)) 11)).
Proof.
  intros Hk Hs Hc Ht Hf Hlen first tenth. split.
  - subst first.
    destruct (tick_reads_ok d bus req 70 Hk (Ht _) (Hf _)) as [fan ->].
    cbv zeta. unfold tick_rc, tick_driver, tick_bus.
    cbn [fst snd samples fanstate ec_log].
    rewrite Hs, (cold_ring_first _ Hc).
    repeat split; try reflexivity. apply last_three.
  - pose proof (run_ticks_steady (req :: reqs) d bus 70 Hk Ht Hf) as H.
    cbv zeta in H. fold tenth in H.
    destruct H as (Hrc & Hring & Hlast).
    cbn [length] in Hrc, Hring. rewrite Hlen in Hrc, Hring.
    rewrite Hs, (cold_ring_tenth _ Hc) in Hring.
    injection Hring as Hsmp Hcur.
    assert (Hne : req :: reqs <> []) by discriminate.
    destruct (Hlast Hne) as [Hfan Hlog].
    rewrite Hsmp in Hfan, Hlog.
    repeat split; try assumption.
    rewrite Hsmp. reflexivity.
Qed.

Lemma cold_start_ramp_witness :
  kernelmode driver_running <> 0 /\
  samples driver_running = replicate 10 0 /\
  0 <= current_sample driver_running < TEMPERATURE_SAMPLES /\
  fanstate (tick_driver (acerhdf_set_cur_state driver_running (ec_steady 70) 0)) = 4 /\
  fanstate (tick_driver (run_ticks driver_running (ec_steady 70)
                                   (0 :: replicate 9 0))) = 11.
Proof.
  assert (Hk : kernelmode driver_running <> 0) by discriminate.
  assert (Hs : samples driver_running = replicate 10 0) by reflexivity.
  assert (Hc : 0 <= current_sample driver_running < TEMPERATURE_SAMPLES)
    by (unfold TEMPERATURE_SAMPLES; cbn [current_sample driver_running]; lia).
  assert (Ht : forall n : nat, ec_resp (ec_steady 70) n
                 (tempreg (ctrl_cfg driver_running)) = Some 70)
    by (intros n; reflexivity).
  assert (Hf : forall n : nat, ec_resp (ec_steady 70) n
                 (fanreg (ctrl_cfg driver_running)) <> None)
    by (intros n; discriminate).
  pose proof (cold_start_ramp driver_running (ec_steady 70) 0 (replicate 9 0)
                              Hk Hs Hc Ht Hf eq_refl) as H.
  cbv zeta in H.
  destruct H as ((_ & _ & H1 & _) & (_ & _ & _ & H10 & _)).
  split; [exact Hk|]. split; [exact Hs|]. split; [exact Hc|].
  split; [exact H1 | exact H10].
Defined.

(** ** Hardware identification *)

Lemma strncmp_prefix (start : string) : forall str : string,
  (String.length start <= String.length str)%nat ->
  strncmp str start (String.length start) = 0 <->
  take (String.length start) (list_ascii_of_string str)
  = take (String.length start) (list_ascii_of_string start).
Proof.
  induction start as [|c2 ct IH]; intros str Hlen.
  - cbn. split; reflexivity.
  - destruct str as [|c1 cs]; [cbn in Hlen; lia|].
    cbn [String.length strncmp list_ascii_of_string take].
    cbn [String.length] in Hlen.
    destruct (Ascii.eqb_spec c1 c2) as [->|Hne].
    + rewrite (IH cs) by lia. split; intros H; [now rewrite H|].
      now injection H.
    + split.
      * destruct (nat_of_ascii c1 <? nat_of_ascii c2)%nat; discriminate.
      * intros H. injection H as H _. contradiction.
Qed.

Lemma str_starts_with_spec (str start : string) :
  str_starts_with str start = Spec.is_prefix start str.
Proof.
  unfold str_starts_with, Spec.is_prefix, strlen.
  destruct (Nat.leb_spec (String.length start) (String.length str)) as [Hle|Hgt];
    [|reflexivity].
  cbn [andb]. apply Bool.eq_true_iff_eq.
  rewrite Z.eqb_eq, bool_decide_eq_true. now apply strncmp_prefix.
Qed.

Lemma str_starts_with_empty (str : string) : str_starts_with str "" = true.
Proof. reflexivity. Qed.

Lemma nonempty_spec (s : string) :
  nonempty s = negb (bool_decide (s = EmptyString)).
Proof. now destruct s. Qed.

Lemma search_bios_spec (tbl : list bios_settings) (vendor product version : string) :
  search_bios tbl vendor product version
  = Spec.first_match tbl vendor product version.
Proof.
  unfold Spec.first_match.
  induction tbl as [|bt tbl IH]; [reflexivity|].
  cbn [search_bios Spec.rows_before_sentinel].
  rewrite nonempty_spec.
  destruct (bool_decide (bs_vendor bt = EmptyString)); [reflexivity|].
  cbn [negb List.find]. unfold Spec.row_matches at 1.
  rewrite !str_starts_with_spec, IH. reflexivity.
Qed.

(** C7: [str_starts_with] is the specification's prefix test (the row's
    string is no longer than the observed one and their first N bytes
    agree; the empty string is a prefix of anything); the search loop
    returns the first row, in declaration order and before the
    sentinel, whose three strings are prefixes of the identity it is
    given; the probe copies that row's registers and returns 0, and
    when no such row exists the probe and [acerhdf_init] return
    -EINVAL.  The identity is the DMI one, with the version or product
    replaced by [force_bios] or [force_product] when these are set. *)
Theorem identity_match_selects_first_prefix_row :
  (forall str start, str_starts_with str start = Spec.is_prefix start str) /\
  (forall str, str_starts_with str "" = true) /\
  (forall tbl vendor product version,
      search_bios tbl vendor product version
      = Spec.first_match tbl vendor product version) /\
  (forall tbl env register d vendor version product,
      dmi_sys_vendor env = Some vendor ->
      dmi_bios_version env = Some version ->
      dmi_product_name env = Some product ->
      list_supported env = 0 ->
      let version := if nonempty (force_bios env) then force_bios env else version in
      let product := if nonempty (force_product env) then force_product env else product in
      match Spec.first_match tbl vendor product version with
      | Some bt =>
          fst (acerhdf_check_hardware tbl env d) = 0 /\
          ctrl_cfg (snd (acerhdf_check_hardware tbl env d))
          = mkCtrl (bs_fanreg bt) (bs_tempreg bt) (bs_cmd bt) (bs_mcmd_enable bt)
      | None =>
          fst (acerhdf_check_hardware tbl env d) = - EINVAL /\
          fst (acerhdf_init tbl env register d) = - EINVAL /\
          fst (acerhdf_init tbl env register d) <> 0
      end).
Proof.
  split; [exact str_starts_with_spec|].
  split; [exact str_starts_with_empty|].
  split; [exact search_bios_spec|].
  intros tbl env register d vendor version product Hv Hver Hp Hls version' product'.
  rewrite <- search_bios_spec.
  assert (E : acerhdf_check_hardware tbl env d =
              let d1 := if nonempty (force_bios env) then set_kernelmode 0 d else d in
              let d2 := if nonempty (force_product env) then set_kernelmode 0 d1 else d1 in
              let d3 := set_samples (replicate (Z.to_nat TEMPERATURE_SAMPLES) 0) d2 in
              match search_bios tbl vendor product' version' with
              | None => (- EINVAL, d3)
              | Some bt =>
                  (0, set_ctrl_cfg (mkCtrl (bs_fanreg bt) (bs_tempreg bt)
                                           (bs_cmd bt) (bs_mcmd_enable bt)) d3)
              end).
  { unfold acerhdf_check_hardware. rewrite Hv, Hver, Hp, Hls.
    cbn [Z.eqb negb]. subst version' product'.
    destruct (nonempty (force_bios env)), (nonempty (force_product env));
      reflexivity. }
  unfold acerhdf_init. rewrite E. cbv zeta.
  destruct (search_bios tbl vendor product' version') as [bt|].
  - split; reflexivity.
  - cbn [fst]. repeat split. discriminate.
Qed.

Lemma identity_match_selects_first_prefix_row_witness :
  fst (acerhdf_check_hardware bios_tbl
         (mkProbe (Some "Acer Inc.") (Some "V1.06.2024")
                  (Some "Predator PH517-51 Gen 1") 0 "" "")
         driver_at_load) = 0 /\
  fst (acerhdf_check_hardware bios_tbl
         (mkProbe (Some "Dell") (Some "V1.06") (Some "Predator PH517-51") 0 "" "")
         driver_at_load) = - EINVAL.
Proof.
  split.
  - exact (proj1 (proj2 (proj2 (proj2 identity_match_selects_first_prefix_row))
       bios_tbl
       (mkProbe (Some "Acer Inc.") (Some "V1.06.2024")
                (Some "Predator PH517-51 Gen 1") 0 "" "")
       (fun d => (0, d)) driver_at_load
       "Acer Inc." "V1.06.2024" "Predator PH517-51 Gen 1"
       eq_refl eq_refl eq_refl eq_refl)).
  - exact (proj1 (proj2 (proj2 (proj2 identity_match_selects_first_prefix_row))
       bios_tbl
       (mkProbe (Some "Dell") (Some "V1.06") (Some "Predator PH517-51") 0 "" "")
       (fun d => (0, d)) driver_at_load
       "Dell" "V1.06" "Predator PH517-51"
       eq_refl eq_refl eq_refl eq_refl)).
Defined.

(** ** Trip points *)

Lemma s32_u32_diff (a b : Z) :
  is_u32 a -> is_u32 b -> is_s32 (a - b) -> s32 (u32 (a - b)) = a - b.
Proof.
  unfold is_u32, is_s32. intros Ha Hb Hd.
  destruct (Z.lt_ge_cases a b) as [Hlt|Hge].
  - rewrite u32_sub_wrap by (unfold is_u32; lia).
    unfold s32.
    replace (a - b + 2 ^ 32 + 2 ^ 31) with ((a - b + 2 ^ 31) + 1 * 2 ^ 32) by lia.
    rewrite Z.mod_add by lia. rewrite Z.mod_small; lia.
  - rewrite u32_small by (unfold is_u32; lia).
    apply s32_small. unfold is_s32. lia.
Qed.

(** C8, amended: [get_trip_temp(0)] gives [fanon] converted to [int],
    which is [fanon] itself as long as [fanon] is below 2^31 (always so
    once the clamp hook has run), [get_trip_temp(1)] gives 89 and any
    other index -EINVAL; [get_trip_hyst(0)] gives the 32-bit unsigned
    difference [fanon - fanoff] converted to [int], which is the exact
    difference whenever that fits an [int], and any other index
    -EINVAL; [get_trip_type] maps 0 to ACTIVE, 1 to CRITICAL and any
    other index to -EINVAL; [get_crit_temp] gives 89. *)
Theorem trip_point_accessors (d : driver) :
  (acerhdf_get_trip_temp d 0 = Ok (s32 (fanon d)) /\
   (0 <= fanon d < 2 ^ 31 -> acerhdf_get_trip_temp d 0 = Ok (fanon d)) /\
   acerhdf_get_trip_temp d 1 = Ok 89 /\
   (forall trip, trip <> 0 -> trip <> 1 ->
                 acerhdf_get_trip_temp d trip = Err (- EINVAL))) /\
  (acerhdf_get_trip_hyst d 0 = Ok (s32 (u32 (fanon d - fanoff d))) /\
   (is_u32 (fanon d) -> is_u32 (fanoff d) -> is_s32 (fanon d - fanoff d) ->
    acerhdf_get_trip_hyst d 0 = Ok (fanon d - fanoff d)) /\
   (forall trip, trip <> 0 -> acerhdf_get_trip_hyst d trip = Err (- EINVAL))) /\
  (acerhdf_get_trip_type d 0 = Ok THERMAL_TRIP_ACTIVE /\
   acerhdf_get_trip_type d 1 = Ok THERMAL_TRIP_CRITICAL /\
   (forall trip, trip <> 0 -> trip <> 1 ->
                 acerhdf_get_trip_type d trip = Err (- EINVAL))) /\
  acerhdf_get_crit_temp d = Ok 89.
Proof.
  repeat split.
  - intros H. unfold acerhdf_get_trip_temp. cbn [Z.eqb].
    rewrite s32_small by (unfold is_s32; lia). reflexivity.
  - intros trip H0 H1. unfold acerhdf_get_trip_temp.
    apply Z.eqb_neq in H0, H1. now rewrite H0, H1.
  - intros Ha Hb Hd. unfold acerhdf_get_trip_hyst. cbn [Z.eqb negb].
    now rewrite s32_u32_diff.
  - intros trip H0. unfold acerhdf_get_trip_hyst.
    apply Z.eqb_neq in H0. now rewrite H0.
  - intros trip H0 H1. unfold acerhdf_get_trip_type.
    apply Z.eqb_neq in H0, H1. now rewrite H0, H1.
Qed.

Lemma trip_point_accessors_witness :
  acerhdf_get_trip_temp (set_fanon 60 (mkDriver 1 1 30 40 [] 0 1 0
     (mkCtrl 0 0 (mkFancmd 0 0) 0) (mkZone 0) true)) 0 = Ok 60 /\
  acerhdf_get_trip_hyst (set_fanon 60 (mkDriver 1 1 30 40 [] 0 1 0
     (mkCtrl 0 0 (mkFancmd 0 0) 0) (mkZone 0) true)) 0 = Ok 20 /\
  acerhdf_get_trip_temp driver_at_load 7 = Err (- EINVAL).
Proof.
  pose proof (trip_point_accessors (set_fanon 60 (mkDriver 1 1 30 40 [] 0 1 0
     (mkCtrl 0 0 (mkFancmd 0 0) 0) (mkZone 0) true))) as H.
  destruct H as ((_ & Ht & _ & _) & (_ & Hh & _) & _).
  split; [apply Ht; cbn; lia|].
  split; [apply Hh; unfold is_u32, is_s32; cbn; lia|].
  apply (proj2 (proj2 (proj2 (proj1 (trip_point_accessors driver_at_load)))));
    discriminate.
Defined.

(** C8 as stated fails: with [fanon] = 4294967295, a value the module
    parameter accepts, [get_trip_temp(0)] stores -1, not [fanon]; and
    with [fanon] = 0, [fanoff] = 3000000000 [get_trip_hyst(0)] stores
    1294967296, not [fanon - fanoff]. *)
Lemma trip_point_accessors_counterexample :
  let d := mkDriver 1 1 4294967295 53000 (replicate 10%nat 0) 0 1 0
                    (mkCtrl 0x4f 0x58 (mkFancmd 0x14 0x04) 1) (mkZone 1000) true in
  let d' := mkDriver 1 1 0 3000000000 (replicate 10%nat 0) 0 1 0
                     (mkCtrl 0x4f 0x58 (mkFancmd 0x14 0x04) 1) (mkZone 1000) true in
  driver_typed d /\ driver_typed d' /\
  acerhdf_get_trip_temp d 0 = Ok (-1) /\
  acerhdf_get_trip_temp d 0 <> Ok (fanon d) /\
  acerhdf_get_trip_hyst d' 0 = Ok 1294967296 /\
  acerhdf_get_trip_hyst d' 0 <> Ok (fanon d' - fanoff d').
Proof.
  cbv zeta.
  split; [split; unfold is_u32; cbn; lia|].
  split; [split; unfold is_u32; cbn; lia|].
  split; [vm_compute; reflexivity|].
  split; [vm_compute; discriminate|].
  split; [vm_compute; reflexivity | vm_compute; discriminate].
Qed.

(** C10: [get_trip_hyst] subtracts in 32-bit unsigned arithmetic and
    stores the result in an [int]: whenever [fanoff] > [fanon] the
    subtraction wraps to [fanon - fanoff + 2^32], the call still
    succeeds, and (the gap being at most 2^31) the stored value is the
    negative [fanon - fanoff]; with the load-time values 30 and 53000
    it is -52970. *)
Theorem trip_hyst_wraps_negative (d : driver) :
  is_u32 (fanon d) -> is_u32 (fanoff d) -> fanon d < fanoff d ->
  u32 (fanon d - fanoff d) = fanon d - fanoff d + 2 ^ 32 /\
  acerhdf_get_trip_hyst d 0 = Ok (s32 (fanon d - fanoff d + 2 ^ 32)) /\
  (fanoff d - fanon d <= 2 ^ 31 ->
   acerhdf_get_trip_hyst d 0 = Ok (fanon d - fanoff d) /\
   fanon d - fanoff d < 0) /\
  (fanon d = 30 -> fanoff d = 53000 ->
   acerhdf_get_trip_hyst d 0 = Ok (-52970)).
Proof.
  intros Ha Hb Hlt.
  pose proof (u32_sub_wrap _ _ Ha Hb Hlt) as Hw.
  split; [exact Hw|].
  split; [unfold acerhdf_get_trip_hyst; cbn [Z.eqb negb]; now rewrite Hw|].
  split.
  - intros Hgap. split; [|lia].
    unfold acerhdf_get_trip_hyst. cbn [Z.eqb negb].
    rewrite s32_u32_diff; [reflexivity|assumption|assumption|].
    unfold is_u32, is_s32 in *. lia.
  - intros E1 E2. unfold acerhdf_get_trip_hyst. cbn [Z.eqb negb].
    rewrite E1, E2. reflexivity.
Qed.

Lemma trip_hyst_wraps_negative_witness :
  is_u32 (fanon driver_at_load) /\ is_u32 (fanoff driver_at_load) /\
  fanon driver_at_load < fanoff driver_at_load /\
  acerhdf_get_trip_hyst driver_at_load 0 = Ok (-52970).
Proof.
  assert (Ha : is_u32 (fanon driver_at_load)) by (unfold is_u32; cbn; lia).
  assert (Hb : is_u32 (fanoff driver_at_load)) by (unfold is_u32; cbn; lia).
  assert (Hlt : fanon driver_at_load < fanoff driver_at_load) by (cbn; lia).
  split; [exact Ha|]. split; [exact Hb|]. split; [exact Hlt|].
  exact (proj2 (proj2 (proj2 (trip_hyst_wraps_negative driver_at_load Ha Hb Hlt)))
               eq_refl eq_refl).
Defined.

(** ** Parameter clamping *)

(** C9: whatever the parameters hold, [acerhdf_check_param], and so
    every [get_temp] poll, leaves [fanon] at most 80000; and in KERNEL
    mode, when [interval] differs from the value seen last, it leaves
    [interval] at most 15 (the old value or 15), sets the zone's polling
    delay to 1000 times that interval, and remembers the interval. *)
Theorem check_param_clamps (d : driver) (bus : ec_bus) :
  fanon (acerhdf_check_param d) <= ACERHDF_MAX_FANON /\
  fanon (tick_driver (acerhdf_get_ec_temp d bus)) <= ACERHDF_MAX_FANON /\
  (kernelmode d <> 0 -> prev_interval d <> interval d -> 0 <= interval d ->
   let d' := acerhdf_check_param d in
   interval d' <= ACERHDF_MAX_INTERVAL /\
   interval d' = Z.min (interval d) ACERHDF_MAX_INTERVAL /\
   polling_delay (zone d') = interval d' * 1000 /\
   prev_interval d' = interval d' /\
   tick_driver (acerhdf_get_ec_temp d bus) = d').
Proof.
  assert (Hfanon : fanon (acerhdf_check_param d) <= ACERHDF_MAX_FANON).
  { unfold acerhdf_check_param, ACERHDF_MAX_FANON.
    destruct (Z.gtb_spec (fanon d) 80000);
      driver_fields;
      destruct (negb (kernelmode d =? 0) && negb (prev_interval d =? interval d));
      try destruct (interval d >? ACERHDF_MAX_INTERVAL);
      driver_fields; lia. }
  assert (Hpoll : tick_driver (acerhdf_get_ec_temp d bus) = acerhdf_check_param d).
  { unfold acerhdf_get_ec_temp, tick_driver.
    destruct (acerhdf_get_temp (acerhdf_check_param d) bus) as [[t|e] bus1];
      reflexivity. }
  split; [exact Hfanon|].
  split; [rewrite Hpoll; exact Hfanon|].
  intros Hk Hp Hi d'. subst d'. rewrite Hpoll.
  unfold acerhdf_check_param, ACERHDF_MAX_FANON, ACERHDF_MAX_INTERVAL.
  apply Z.eqb_neq in Hk, Hp.
  destruct (fanon d >? 80000); driver_fields; rewrite Hk, Hp; cbn [negb andb];
    destruct (Z.gtb_spec (interval d) 15); driver_fields;
    repeat split; try lia;
    rewrite u32_small, s32_small by (unfold is_u32, is_s32; lia); reflexivity.
Qed.

Lemma check_param_clamps_witness :
  kernelmode (set_interval 60 driver_running) <> 0 /\
  prev_interval (set_interval 60 driver_running) <> interval (set_interval 60 driver_running) /\
  interval (acerhdf_check_param (set_interval 60 driver_running)) = 15 /\
  polling_delay (zone (acerhdf_check_param (set_interval 60 driver_running))) = 15000.
Proof.
  assert (Hk : kernelmode (set_interval 60 driver_running) <> 0) by discriminate.
  assert (Hp : prev_interval (set_interval 60 driver_running)
               <> interval (set_interval 60 driver_running)) by discriminate.
  assert (Hi : 0 <= interval (set_interval 60 driver_running)) by (cbn; lia).
  pose proof (proj2 (proj2 (check_param_clamps (set_interval 60 driver_running)
                              ec_dead)) Hk Hp Hi) as H.
  cbv zeta in H. destruct H as (_ & Hmin & Hpoll & _).
  split; [exact Hk|]. split; [exact Hp|].
  split; [exact Hmin|]. rewrite Hpoll, Hmin. reflexivity.
Defined.

(** * Further properties of the driver *)

(** ** What one tick can do *)

Lemma tick_outcome (d : driver) (bus : ec_bus) (state : Z) :
  (kernelmode d = 0 /\ acerhdf_set_cur_state d bus state = (0, d, bus)) \/
  (kernelmode d <> 0 /\ exists v fan,
      is_u8 v /\
      acerhdf_set_cur_state d bus state =
      let smp := array_store (samples d) (current_sample d) v in
      let s := fan_schedule state (smoothed smp) in
      (0,
       mkDriver (kernelmode d) (interval d) (fanon d) (fanoff d) smp
                (next_cursor (current_sample d)) s (prev_interval d) (ctrl_cfg d)
                (zone d) (thz_dev d),
       mkBus (ec_resp bus)
             (ec_log bus ++ [EcRead (tempreg (ctrl_cfg d)) (Some v);
                             EcRead (fanreg (ctrl_cfg d)) (Some fan);
                             EcWrite (fanreg (ctrl_cfg d)) s]))) \/
  (kernelmode d <> 0 /\ exists smp reads,
      (smp = samples d \/
       exists v, is_u8 v /\ smp = array_store (samples d) (current_sample d) v) /\
      Forall (fun e => is_write e = false) reads /\
      (length reads <= 2)%nat /\
      acerhdf_set_cur_state d bus state =
      (- EINVAL,
       mkDriver 0 (interval d) (fanon d) (fanoff d) smp
                (next_cursor (current_sample d)) 5 (prev_interval d) (ctrl_cfg d)
                (if thz_dev d then mkZone 0 else zone d) (thz_dev d),
       mkBus (ec_resp bus)
             (ec_log bus ++ reads ++ [EcWrite (fanreg (ctrl_cfg d)) 5]))).
Proof.
  destruct (Z.eq_dec (kernelmode d) 0) as [Hk|Hk].
  - left. split; [exact Hk | now apply tick_bios].
  - right.
    destruct (ec_resp bus (length (ec_log bus)) (tempreg (ctrl_cfg d)))
      as [v|] eqn:Et.
    + destruct (ec_resp bus (S (length (ec_log bus))) (fanreg (ctrl_cfg d)))
        as [f|] eqn:Ef.
      * left. split; [exact Hk|]. exists (u8 v), (u8 f).
        split; [apply u8_range|]. now apply tick_ok.
      * right. split; [exact Hk|].
        exists (array_store (samples d) (current_sample d) (u8 v)),
          [EcRead (tempreg (ctrl_cfg d)) (Some (u8 v));
           EcRead (fanreg (ctrl_cfg d)) None].
        split; [right; exists (u8 v); split; [apply u8_range|reflexivity]|].
        split; [repeat constructor|]. split; [cbn; lia|].
        now apply tick_fan_fails.
    + right. split; [exact Hk|].
      exists (samples d), [EcRead (tempreg (ctrl_cfg d)) None].
      split; [now left|]. split; [repeat constructor|]. split; [cbn; lia|].
      now apply tick_temp_fails.
Qed.

(** ** The sample ring *)

Lemma next_cursor_in_ring (c : Z) :
  0 <= c < TEMPERATURE_SAMPLES ->
  next_cursor c = (c + 1) mod TEMPERATURE_SAMPLES /\
  0 <= next_cursor c < TEMPERATURE_SAMPLES.
Proof.
  unfold next_cursor, TEMPERATURE_SAMPLES. intros Hc.
  rewrite s32_small by (unfold is_s32; lia).
  destruct (Z.gtb_spec (c + 1) (10 - 1)) as [Hgt|Hle].
  - assert (c = 9) by lia. subst c. split; [reflexivity|lia].
  - rewrite Z.mod_small by lia. lia.
Qed.

Lemma array_store_length (a : list Z) (i v : Z) :
  length (array_store a i v) = length a.
Proof.
  unfold array_store.
  destruct ((0 <=? i) && (i <? Z.of_nat (length a))); [apply length_insert|reflexivity].
Qed.

Lemma array_store_bytes (a : list Z) (i v : Z) :
  Forall is_u8 a -> is_u8 v -> Forall is_u8 (array_store a i v).
Proof.
  intros Ha Hv. unfold array_store.
  destruct ((0 <=? i) && (i <? Z.of_nat (length a))); [|exact Ha].
  now apply Forall_insert.
Qed.

Lemma tick_ring_step (d : driver) (bus : ec_bus) (state : Z) :
  ring_ok d ->
  ring_ok (tick_driver (acerhdf_set_cur_state d bus state)) /\
  (kernelmode d <> 0 ->
   current_sample (tick_driver (acerhdf_set_cur_state d bus state))
   = (current_sample d + 1) mod TEMPERATURE_SAMPLES).
Proof.
  intros [Hlen Hbytes Hcur].
  destruct (next_cursor_in_ring _ Hcur) as [Hnext Hrange].
  destruct (tick_outcome d bus state)
    as [[Hk ->]|[(Hk & v & fan & Hv & ->)|(Hk & smp & reads & Hsmp & _ & _ & ->)]];
    unfold tick_driver; cbn [fst snd]; cbv zeta.
  - split; [now constructor | contradiction].
  - split; [|intros _; exact Hnext].
    constructor; cbn [samples current_sample].
    + now rewrite array_store_length.
    + now apply array_store_bytes.
    + exact Hrange.
  - split; [|intros _; exact Hnext].
    constructor; cbn [samples current_sample]; [| |exact Hrange];
      destruct Hsmp as [->|(v & Hv & ->)]; try assumption.
    + now rewrite array_store_length.
    + now apply array_store_bytes.
Qed.

Lemma run_ticks_keep_ring (reqs : list Z) : forall (d : driver) (bus : ec_bus),
  ring_ok d -> ring_ok (tick_driver (run_ticks d bus reqs)).
Proof.
  induction reqs as [|state reqs IH]; intros d bus Hd; [exact Hd|].
  cbn [run_ticks].
  pose proof (proj1 (tick_ring_step d bus state Hd)) as H1.
  destruct (acerhdf_set_cur_state d bus state) as [[rc d1] bus1].
  unfold tick_driver in H1. cbn [fst snd] in H1.
  specialize (IH d1 bus1 H1).
  destruct (run_ticks d1 bus1 reqs) as [[rcs d2] bus2].
  exact IH.
Qed.

(** X1: whatever the EC answers and whatever the governor asks, a tick
    keeps the ring well formed (ten slots, every slot a byte, the cursor
    inside the array), and so does any run of ticks; in KERNEL mode a
    tick moves the cursor by exactly one slot modulo 10, also when a
    read fails. *)
Theorem tick_keeps_ring (d : driver) (bus : ec_bus) (state : Z) :
  ring_ok d ->
  ring_ok (tick_driver (acerhdf_set_cur_state d bus state)) /\
  (kernelmode d <> 0 ->
   current_sample (tick_driver (acerhdf_set_cur_state d bus state))
   = (current_sample d + 1) mod TEMPERATURE_SAMPLES) /\
  (forall reqs, ring_ok (tick_driver (run_ticks d bus reqs))).
Proof.
  intros Hd. destruct (tick_ring_step d bus state Hd) as [H1 H2].
  split; [exact H1|]. split; [exact H2|].
  intros reqs. now apply run_ticks_keep_ring.
Qed.

Lemma tick_keeps_ring_witness :
  ring_ok driver_running /\
  ring_ok (tick_driver (acerhdf_set_cur_state driver_running (ec_steady 70) 0)).
Proof.
  assert (H : ring_ok driver_running).
  { constructor; [reflexivity | repeat constructor; unfold is_u8; lia |].
    unfold TEMPERATURE_SAMPLES. cbn. lia. }
  split; [exact H|].
  exact (proj1 (tick_keeps_ring driver_running (ec_steady 70) 0 H)).
Defined.

Lemma ten_slots (a : list Z) :
  length a = 10%nat ->
  exists a0 a1 a2 a3 a4 a5 a6 a7 a8 a9,
    a = [a0; a1; a2; a3; a4; a5; a6; a7; a8; a9].
Proof.
  intros H.
  do 10 (destruct a as [|? a]; [discriminate H|]).
  destruct a; [|discriminate H]. repeat eexists.
Qed.

Ltac strip_s32 :=
  repeat match goal with
         | |- context [s32 ?x] =>
             lazymatch x with
             | context [s32 _] => fail
             | _ => rewrite (s32_small x) by (unfold is_s32, is_u8 in *; lia)
             end
         end.

Lemma sum_samples_total (a : list Z) :
  length a = 10%nat -> Forall is_u8 a -> sum_samples a = total a.
Proof.
  intros Hlen Hbytes.
  destruct (ten_slots a Hlen) as (a0&a1&a2&a3&a4&a5&a6&a7&a8&a9&->).
  repeat match goal with
         | H : Forall _ (_ :: _) |- _ => apply Forall_cons in H; destruct H
         end.
  unfold sum_samples, total, array_load, TEMPERATURE_SAMPLES.
  change (Z.to_nat 10) with 10%nat.
  cbn -[s32 Z.add].
  strip_s32. unfold is_u8 in *. lia.
Qed.

Lemma total_bytes (a : list Z) :
  Forall is_u8 a -> 0 <= total a <= 255 * Z.of_nat (length a).
Proof.
  induction 1 as [|x a Hx _ IH]; [cbn; lia|].
  cbn [total fold_right length]. fold (total a). unfold is_u8 in Hx. lia.
Qed.

(** X2: on a well-formed ring the 32-bit running sum of the loop never
    wraps: the smoothed temperature is the exact sum of the ten slots
    divided by ten, rounded down, and lies in [0, 255]. *)
Theorem smoothed_is_floor_average (d : driver) :
  ring_ok d ->
  sum_samples (samples d) = total (samples d) /\
  smoothed (samples d) = total (samples d) / 10 /\
  0 <= smoothed (samples d) <= 255.
Proof.
  intros [Hlen Hbytes _].
  pose proof (sum_samples_total _ Hlen Hbytes) as Hsum.
  pose proof (total_bytes _ Hbytes) as Hb. rewrite Hlen in Hb.
  assert (Hq : smoothed (samples d) = total (samples d) / 10).
  { unfold smoothed, TEMPERATURE_SAMPLES. rewrite Hsum.
    apply Z.quot_div_nonneg; lia. }
  split; [exact Hsum|]. split; [exact Hq|]. rewrite Hq.
  split; [apply Z.div_pos; lia|].
  apply Z.div_le_upper_bound; lia.
Qed.

Lemma smoothed_is_floor_average_witness :
  ring_ok (set_samples [40; 41; 42; 43; 44; 45; 46; 47; 48; 49] driver_running) /\
  smoothed [40; 41; 42; 43; 44; 45; 46; 47; 48; 49] = 445 / 10.
Proof.
  assert (H : ring_ok (set_samples [40; 41; 42; 43; 44; 45; 46; 47; 48; 49]
                                   driver_running)).
  { constructor; [reflexivity | repeat constructor; unfold is_u8; lia |].
    unfold TEMPERATURE_SAMPLES. cbn. lia. }
  split; [exact H|].
  exact (proj1 (proj2 (smoothed_is_floor_average _ H))).
Defined.

(** ** What the loop does on the EC *)

Lemma tick_log (d : driver) (bus : ec_bus) (state : Z) :
  let r := acerhdf_set_cur_state d bus state in
  ctrl_cfg (tick_driver r) = ctrl_cfg d /\
  ec_resp (tick_bus r) = ec_resp bus /\
  exists added,
    ec_log (tick_bus r) = ec_log bus ++ added /\
    Forall (fan_write_ok (ctrl_cfg d)) added /\
    (length (List.filter is_read added) <= 2)%nat /\
    length (List.filter is_write added)
    = (if kernelmode d =? 0 then 0%nat else 1%nat).
Proof.
  cbv zeta.
  destruct (tick_outcome d bus state)
    as [[Hk ->]|[(Hk & v & fan & Hv & ->)|(Hk & smp & reads & _ & Hreads & Hn & ->)]];
    unfold tick_driver, tick_bus; cbn [fst snd]; cbv zeta;
    cbn [ctrl_cfg ec_resp ec_log];
    (split; [reflexivity|]); (split; [reflexivity|]).
  - exists []. rewrite app_nil_r, Hk. cbn. repeat split; try lia. constructor.
  - apply Z.eqb_neq in Hk. rewrite Hk.
    eexists. split; [reflexivity|].
    pose proof (fan_schedule_range state
                  (smoothed (array_store (samples d) (current_sample d) v))).
    split; [|split; [cbn; lia | reflexivity]].
    repeat constructor; unfold MIN_FAN_SPEED; lia.
  - apply Z.eqb_neq in Hk. rewrite Hk.
    eexists. split; [reflexivity|].
    split; [|split].
    + apply Forall_app. split.
      * clear Hn. induction Hreads as [|e reads He _ IH]; constructor; [|exact IH].
        destruct e; [exact I | discriminate He].
      * repeat constructor; unfold MIN_FAN_SPEED; lia.
    + rewrite List.filter_app, length_app. cbn [List.filter is_read length].
      pose proof (List.filter_length_le is_read reads). lia.
    + rewrite List.filter_app, (no_writes_among_reads reads Hreads). reflexivity.
Qed.

Lemma run_ticks_log (reqs : list Z) : forall (d : driver) (bus : ec_bus),
  let r := run_ticks d bus reqs in
  ctrl_cfg (tick_driver r) = ctrl_cfg d /\
  ec_resp (tick_bus r) = ec_resp bus /\
  exists added,
    ec_log (tick_bus r) = ec_log bus ++ added /\
    Forall (fan_write_ok (ctrl_cfg d)) added /\
    (length (List.filter is_read added) <= 2 * length reqs)%nat /\
    (length (List.filter is_write added) <= length reqs)%nat.
Proof.
  induction reqs as [|state reqs IH]; intros d bus; cbv zeta.
  - cbn [run_ticks]. unfold tick_driver, tick_bus. cbn [fst snd length].
    split; [reflexivity|]. split; [reflexivity|].
    exists []. rewrite app_nil_r. cbn. repeat split; try lia. constructor.
  - cbn [run_ticks length].
    pose proof (tick_log d bus state) as H1. cbv zeta in H1.
    destruct (acerhdf_set_cur_state d bus state) as [[rc d1] bus1].
    unfold tick_driver, tick_bus in H1. cbn [fst snd] in H1.
    destruct H1 as (Hcfg1 & Hresp1 & add1 & Hlog1 & Hok1 & Hr1 & Hw1).
    specialize (IH d1 bus1). cbv zeta in IH.
    destruct (run_ticks d1 bus1 reqs) as [[rcs d2] bus2].
    unfold tick_driver, tick_bus in *. cbn [fst snd] in *.
    destruct IH as (Hcfg2 & Hresp2 & add2 & Hlog2 & Hok2 & Hr2 & Hw2).
    split; [congruence|]. split; [congruence|].
    exists (add1 ++ add2).
    split; [rewrite Hlog2, Hlog1; now rewrite app_assoc|].
    split; [apply Forall_app; split; [exact Hok1 | now rewrite <- Hcfg1]|].
    rewrite !List.filter_app, !length_app.
    destruct (kernelmode d =? 0); lia.
Qed.

(** X3: whatever the EC answers and whatever states the governor asks
    for, a run of ticks only ever writes to the fan register, and only
    values from MIN_FAN_SPEED = 4 to 11 (the fan is never switched off
    or set below the minimum); it makes at most one write and two reads
    per tick, and a tick in KERNEL mode makes exactly one write. *)
Theorem loop_writes_only_fan_states (d : driver) (bus : ec_bus) (reqs : list Z) :
  (exists added,
      ec_log (tick_bus (run_ticks d bus reqs)) = ec_log bus ++ added /\
      Forall (fan_write_ok (ctrl_cfg d)) added /\
      (length (List.filter is_read added) <= 2 * length reqs)%nat /\
      (length (List.filter is_write added) <= length reqs)%nat) /\
  (forall state,
      exists added,
        ec_log (tick_bus (acerhdf_set_cur_state d bus state)) = ec_log bus ++ added /\
        length (List.filter is_write added)
        = (if kernelmode d =? 0 then 0%nat else 1%nat)).
Proof.
  split.
  - exact (proj2 (proj2 (run_ticks_log reqs d bus))).
  - intros state.
    destruct (tick_log d bus state) as (_ & _ & added & Hlog & _ & _ & Hw).
    exists added. split; assumption.
Qed.

(** ** Errors of a run *)

Lemma errors_zeros (n : nat) : errors (replicate n 0) = [].
Proof. induction n as [|n IH]; [reflexivity | exact IH]. Qed.

Lemma run_ticks_errors (reqs : list Z) : forall (d : driver) (bus : ec_bus),
  let r := run_ticks d bus reqs in
  length (tick_rc r) = length reqs /\
  ((errors (tick_rc r) = [] /\ kernelmode (tick_driver r) = kernelmode d) \/
   (errors (tick_rc r) = [- EINVAL] /\ kernelmode d <> 0 /\
    kernelmode (tick_driver r) = 0)).
Proof.
  induction reqs as [|state reqs IH]; intros d bus; cbv zeta.
  - cbn. split; [reflexivity|]. left. split; reflexivity.
  - cbn [run_ticks length].
    destruct (tick_outcome d bus state)
      as [[Hk ->]|[(Hk & v & fan & Hv & ->)|(Hk & smp & reads & _ & _ & _ & ->)]];
      cbv beta iota zeta.
    + specialize (IH d bus). cbv zeta in IH.
      destruct (run_ticks d bus reqs) as [[rcs d2] bus2].
      unfold tick_rc, tick_driver in *. cbn [fst snd] in *.
      cbn [length]. split; [lia|]. exact (proj2 IH).
    + match goal with
      | |- context [run_ticks ?d1 ?bus1 reqs] =>
          specialize (IH d1 bus1); cbv zeta in IH;
          destruct (run_ticks d1 bus1 reqs) as [[rcs d2] bus2]
      end.
      unfold tick_rc, tick_driver in *. cbn [fst snd kernelmode] in *.
      cbn [length]. split; [lia|].
      destruct IH as [_ [IH|(IH & _ & IH')]]; [left; exact IH|].
      right. split; [exact IH|]. split; [exact Hk | exact IH'].
    + rewrite run_ticks_bios by reflexivity.
      unfold tick_rc, tick_driver. cbn [fst snd kernelmode length].
      rewrite length_replicate. split; [reflexivity|].
      right. unfold errors. cbn [List.filter]. fold (errors (replicate (length reqs) 0)).
      rewrite errors_zeros. repeat split. exact Hk.
Qed.

(** X4: a run of ticks returns one code per tick and reports at most
    one error, -EINVAL: either every code is 0 and the mode is the one
    the run started in, or exactly one code is -EINVAL, the run started
    in KERNEL mode and ends in BIOS mode. *)
Theorem loop_reports_at_most_one_error (d : driver) (bus : ec_bus) (reqs : list Z) :
  let r := run_ticks d bus reqs in
  length (tick_rc r) = length reqs /\
  ((errors (tick_rc r) = [] /\ kernelmode (tick_driver r) = kernelmode d) \/
   (errors (tick_rc r) = [- EINVAL] /\ kernelmode d <> 0 /\
    kernelmode (tick_driver r) = 0)).
Proof. apply run_ticks_errors. Qed.

(** X5: a tick whose temperature read fails stores nothing in the ring
    and does not read the fan register, yet it moves the cursor on; a
    tick whose temperature read gives [v] and whose fan-state read fails
    has stored the byte [v] at the cursor before it gives up. *)
Theorem failed_tick_and_the_ring (d : driver) (bus : ec_bus) (state : Z) :
  kernelmode d <> 0 ->
  let r := acerhdf_set_cur_state d bus state in
  (ec_resp bus (length (ec_log bus)) (tempreg (ctrl_cfg d)) = None ->
   samples (tick_driver r) = samples d /\
   current_sample (tick_driver r) = next_cursor (current_sample d) /\
   ec_reads (tick_bus r) = ec_reads bus ++ [EcRead (tempreg (ctrl_cfg d)) None]) /\
  (forall v,
      ec_resp bus (length (ec_log bus)) (tempreg (ctrl_cfg d)) = Some v ->
      ec_resp bus (S (length (ec_log bus))) (fanreg (ctrl_cfg d)) = None ->
      tick_rc r = - EINVAL /\
      samples (tick_driver r) = array_store (samples d) (current_sample d) (u8 v) /\
      current_sample (tick_driver r) = next_cursor (current_sample d)).
Proof.
  intros Hk r. subst r. split.
  - intros Ht. rewrite (tick_temp_fails d bus state Hk Ht).
    unfold tick_driver, tick_bus, ec_reads. cbn [fst snd samples current_sample ec_log].
    rewrite List.filter_app. repeat split.
  - intros v Ht Hf. rewrite (tick_fan_fails d bus state v Hk Ht Hf).
    repeat split.
Qed.

Lemma failed_tick_and_the_ring_witness :
  kernelmode driver_running <> 0 /\
  samples (tick_driver (acerhdf_set_cur_state driver_running ec_dead 0))
  = samples driver_running /\
  current_sample (tick_driver (acerhdf_set_cur_state driver_running ec_dead 0)) = 1.
Proof.
  assert (Hk : kernelmode driver_running <> 0) by discriminate.
  pose proof (proj1 (failed_tick_and_the_ring driver_running ec_dead 0 Hk) eq_refl)
    as (Hs & Hc & _).
  split; [exact Hk|]. split; [exact Hs|].
  rewrite Hc. reflexivity.
Defined.

(** ** Ten good ticks *)

Lemma run_ticks_good (reqs : list Z) : forall (d : driver) (bus : ec_bus) (vs : list Z),
  kernelmode d <> 0 ->
  length vs = length reqs ->
  reads_give bus (ctrl_cfg d) vs ->
  let r := run_ticks d bus reqs in
  tick_rc r = replicate (length reqs) 0 /\
  (samples (tick_driver r), current_sample (tick_driver r))
  = ring_fill (u8 <$> vs) (samples d, current_sample d) /\
  kernelmode (tick_driver r) = kernelmode d /\
  (reqs <> [] ->
   fanstate (tick_driver r) = fan_schedule 0 (smoothed (samples (tick_driver r))) /\
   last (ec_log (tick_bus r))
   = Some (EcWrite (fanreg (ctrl_cfg d))
                   (fan_schedule 0 (smoothed (samples (tick_driver r)))))).
Proof.
  induction reqs as [|state reqs IH]; intros d bus vs Hk Hlen Hgive.
  - destruct vs; [|discriminate Hlen].
    cbn [run_ticks length replicate]. unfold tick_rc, tick_driver.
    cbn [fst snd]. split; [reflexivity|]. split; [reflexivity|].
    split; [reflexivity|]. congruence.
  - destruct vs as [|v vs]; [discriminate Hlen|].
    cbn [length] in Hlen. injection Hlen as Hlen.
    destruct (Hgive 0%nat v eq_refl) as [Ht Hf].
    rewrite Nat.mul_0_r, Nat.add_0_r in Ht, Hf.
    cbn [run_ticks length].
    destruct (tick_reads_ok d bus state v Hk Ht Hf) as [fan ->].
    cbv beta iota zeta.
    set (smp := array_store (samples d) (current_sample d) (u8 v)).
    set (d1 := mkDriver _ _ _ _ _ _ _ _ _ _ _).
    set (bus1 := mkBus _ _).
    assert (Hgive1 : reads_give bus1 (ctrl_cfg d1) vs).
    { intros k w Hw. subst bus1 d1. cbn [ec_resp ec_log ctrl_cfg].
      rewrite length_app. cbn [length].
      destruct (Hgive (S k) w Hw) as [H1 H2].
      replace (length (ec_log bus) + 3 + 3 * k)%nat
        with (length (ec_log bus) + 3 * S k)%nat by lia.
      split; assumption. }
    specialize (IH d1 bus1 vs Hk Hlen Hgive1). cbv zeta in IH.
    destruct (run_ticks d1 bus1 reqs) as [[rcs d'] bus'] eqn:Er.
    unfold tick_rc, tick_driver, tick_bus in *. cbn [fst snd] in *.
    destruct IH as (Hrc & Hring & Hmode & Hlast).
    split; [cbn [replicate]; now rewrite Hrc|].
    split; [exact Hring|]. split; [exact Hmode|].
    intros _. destruct reqs as [|s2 reqs].
    + cbn [run_ticks] in Er. injection Er as <- <- <-. subst d1 bus1.
      cbn [fanstate samples ec_log ctrl_cfg].
      rewrite (fan_schedule_ignores_state 0 state). split; [reflexivity|].
      apply last_three.
    + apply Hlast. discriminate.
Qed.

Lemma ring_fill_ten (a ws : list Z) (c : Z) :
  length a = 10%nat -> length ws = 10%nat -> 0 <= c < TEMPERATURE_SAMPLES ->
  snd (ring_fill ws (a, c)) = c /\
  total (fst (ring_fill ws (a, c))) = total ws /\
  length (fst (ring_fill ws (a, c))) = 10%nat /\
  (forall P : Z -> Prop, Forall P ws -> Forall P (fst (ring_fill ws (a, c)))) /\
  forall k : nat, (k < 10)%nat ->
    fst (ring_fill ws (a, c)) !! Z.to_nat ((c + Z.of_nat k) mod 10) = ws !! k.
Proof.
  intros Ha Hw Hc.
  destruct (ten_slots a Ha) as (a0&a1&a2&a3&a4&a5&a6&a7&a8&a9&->).
  destruct (ten_slots ws Hw) as (w0&w1&w2&w3&w4&w5&w6&w7&w8&w9&->).
  apply cursor_cases in Hc.
  repeat (destruct Hc as [Hc|Hc]; [subst c|]); [..|subst c];
    (set (r := ring_fill _ _); vm_compute in r; subst r; cbn [fst snd];
     split; [reflexivity|];
     split; [unfold total; cbn [fold_right]; lia|];
     split; [reflexivity|];
     split; [intros P HP;
             repeat (apply Forall_cons in HP; destruct HP as [? HP]);
             repeat constructor; assumption|];
     intros k Hk;
     do 10 (destruct k as [|k]; [reflexivity|]); lia).
Qed.

(** X6: ten ticks in a row whose reads succeed overwrite the whole
    ring: whatever the slots held before and wherever the cursor stood,
    afterwards slot (cursor + k) mod 10 holds the byte read by tick k,
    the cursor is back where it was, the smoothed temperature is the
    sum of the ten readings divided by ten, rounded down, and the last
    write to the fan register is the scheduled state for that value. *)
Theorem ten_good_ticks_forget_the_past
  (d : driver) (bus : ec_bus) (reqs vs : list Z) :
  kernelmode d <> 0 ->
  length (samples d) = 10%nat ->
  0 <= current_sample d < TEMPERATURE_SAMPLES ->
  length reqs = 10%nat ->
  length vs = 10%nat ->
  reads_give bus (ctrl_cfg d) vs ->
  let r := run_ticks d bus reqs in
  let avg := total (u8 <$> vs) / 10 in
  tick_rc r = replicate 10 0 /\
  current_sample (tick_driver r) = current_sample d /\
  (forall (k : nat) (v : Z),
      vs !! k = Some v ->
      samples (tick_driver r) !! Z.to_nat ((current_sample d + Z.of_nat k) mod 10)
      = Some (u8 v)) /\
  smoothed (samples (tick_driver r)) = avg /\
  fanstate (tick_driver r) = fan_schedule 0 avg /\
  last (ec_log (tick_bus r))
  = Some (EcWrite (fanreg (ctrl_cfg d)) (fan_schedule 0 avg)).
Proof.
  intros Hk Hlen Hc Hreqs Hvs Hgive r avg.
  assert (Hvr : length vs = length reqs) by congruence.
  pose proof (run_ticks_good reqs d bus vs Hk Hvr Hgive) as H.
  cbv zeta in H. fold r in H.
  destruct H as (Hrc & Hring & _ & Hlast).
  assert (Hws : length (u8 <$> vs) = 10%nat) by now rewrite length_fmap.
  destruct (ring_fill_ten (samples d) (u8 <$> vs) (current_sample d) Hlen Hws Hc)
    as (Hcur & Htot & Hlen' & Hall & Hslot).
  rewrite <- Hring in Hcur, Htot, Hlen', Hall, Hslot. cbn [fst snd] in *.
  assert (Hbytes : Forall is_u8 (samples (tick_driver r))).
  { apply Hall. apply Forall_fmap, Forall_forall. intros x _. apply u8_range. }
  assert (Hring' : ring_ok (tick_driver r)).
  { constructor; [exact Hlen' | exact Hbytes | now rewrite Hcur]. }
  destruct (smoothed_is_floor_average _ Hring') as (_ & Hsm & _).
  assert (Hne : reqs <> []) by (intros ->; discriminate Hreqs).
  destruct (Hlast Hne) as [Hfan Hlog].
  rewrite Hsm, Htot in Hfan, Hlog. fold avg in Hfan, Hlog.
  rewrite Hreqs in Hrc.
  split; [exact Hrc|]. split; [exact Hcur|].
  split.
  - intros k v Hv.
    assert (Hk10 : (k < 10)%nat) by (rewrite <- Hvs; eapply lookup_lt_Some; eauto).
    rewrite (Hslot k Hk10), list_lookup_fmap, Hv. reflexivity.
  - split; [now rewrite Hsm, Htot|]. split; assumption.
Qed.

Lemma ten_good_ticks_forget_the_past_witness :
  reads_give (ec_climbing 60) (ctrl_cfg driver_running)
             [60; 61; 62; 63; 64; 65; 66; 67; 68; 69] /\
  smoothed (samples (tick_driver
     (run_ticks driver_running (ec_climbing 60) (replicate 10 0)))) = 645 / 10.
Proof.
  assert (Hk : kernelmode driver_running <> 0) by discriminate.
  assert (Hc : 0 <= current_sample driver_running < TEMPERATURE_SAMPLES)
    by (unfold TEMPERATURE_SAMPLES; cbn [current_sample driver_running]; lia).
  assert (Hgive : reads_give (ec_climbing 60) (ctrl_cfg driver_running)
                             [60; 61; 62; 63; 64; 65; 66; 67; 68; 69]).
  { intros k v Hv.
    do 10 (destruct k as [|k];
           [injection Hv as <-; split; [reflexivity|discriminate]|]).
    discriminate Hv. }
  split; [exact Hgive|].
  pose proof (ten_good_ticks_forget_the_past driver_running (ec_climbing 60)
                (replicate 10 0) [60; 61; 62; 63; 64; 65; 66; 67; 68; 69]
                Hk eq_refl Hc eq_refl eq_refl Hgive) as H.
  cbv zeta in H. destruct H as (_ & _ & _ & Hsm & _).
  exact Hsm.
Defined.

(** ** The parameter hook and the polls *)

Ltac check_param_cases d :=
  unfold acerhdf_check_param, ACERHDF_MAX_FANON, ACERHDF_MAX_INTERVAL;
  destruct (Z.gtb_spec (fanon d) 80000); driver_fields;
  destruct (Z.eqb_spec (kernelmode d) 0);
  destruct (Z.eqb_spec (prev_interval d) (interval d));
  cbn [negb andb]; driver_fields;
  try (destruct (Z.gtb_spec (interval d) 15); driver_fields).

Lemma check_param_settles (d : driver) :
  fanon (acerhdf_check_param d) <= ACERHDF_MAX_FANON /\
  (kernelmode (acerhdf_check_param d) = 0 \/
   prev_interval (acerhdf_check_param d) = interval (acerhdf_check_param d)).
Proof.
  check_param_cases d; unfold ACERHDF_MAX_FANON;
    (split; [lia | tauto || (right; reflexivity) || (left; assumption)]).
Qed.

Lemma check_param_fixed (d : driver) :
  fanon d <= ACERHDF_MAX_FANON ->
  kernelmode d = 0 \/ prev_interval d = interval d ->
  acerhdf_check_param d = d.
Proof.
  unfold acerhdf_check_param, ACERHDF_MAX_FANON. intros Hf Hs.
  destruct (Z.gtb_spec (fanon d) 80000); [lia|].
  assert (E : negb (kernelmode d =? 0) && negb (prev_interval d =? interval d)
              = false).
  { destruct Hs as [Hs|Hs]; rewrite Hs; [reflexivity|].
    rewrite Z.eqb_refl. apply andb_false_r. }
  rewrite E. reflexivity.
Qed.

(** X7: the parameter hook is idempotent: running it a second time on
    its own result changes nothing, whatever the parameters held. *)
Theorem check_param_idempotent (d : driver) :
  acerhdf_check_param (acerhdf_check_param d) = acerhdf_check_param d.
Proof.
  destruct (check_param_settles d) as [Hf Hs].
  now apply check_param_fixed.
Qed.

(** X8: the remembered interval never exceeds 15 once it did not, and
    then in KERNEL mode the hook always leaves [interval] at most 15 and
    remembered; in BIOS mode the hook touches neither [interval] nor the
    polling delay: there [interval] is not clamped at all. *)
Theorem interval_invariant (d : driver) :
  prev_interval d <= ACERHDF_MAX_INTERVAL ->
  let d' := acerhdf_check_param d in
  prev_interval d' <= ACERHDF_MAX_INTERVAL /\
  (kernelmode d <> 0 ->
   interval d' <= ACERHDF_MAX_INTERVAL /\ prev_interval d' = interval d') /\
  (kernelmode d = 0 ->
   interval d' = interval d /\ zone d' = zone d /\
   prev_interval d' = prev_interval d).
Proof.
  intros Hprev d'. subst d'. revert Hprev.
  check_param_cases d; unfold ACERHDF_MAX_INTERVAL; intros Hprev;
    (split; [lia|]); (split; [intros Hk|intros Hk]);
    try contradiction; repeat split; lia.
Qed.

Lemma interval_invariant_witness :
  prev_interval (set_interval 60 driver_bios) <= ACERHDF_MAX_INTERVAL /\
  interval (acerhdf_check_param (set_interval 60 driver_bios)) = 60.
Proof.
  assert (H : prev_interval (set_interval 60 driver_bios) <= ACERHDF_MAX_INTERVAL)
    by (unfold ACERHDF_MAX_INTERVAL; cbn; lia).
  split; [exact H|].
  exact (proj1 (proj2 (proj2 (interval_invariant _ H)) eq_refl)).
Defined.

(** X9: the zone's get_temp callback and the cooling device's
    get_cur_state each do exactly one EC read and no write; they give
    the byte the EC answers (not the smoothed temperature, not the
    cached fan state) or -EINVAL when the read fails, and the poll
    leaves the ring, the cursor, the mode and the cached fan state as
    they were. *)
Theorem polls_read_once (d : driver) (bus : ec_bus) :
  let d1 := acerhdf_check_param d in
  let t := ec_resp bus (length (ec_log bus)) (tempreg (ctrl_cfg d)) in
  let f := ec_resp bus (length (ec_log bus)) (fanreg (ctrl_cfg d)) in
  acerhdf_get_ec_temp d bus
  = (match t with Some v => Ok (u8 v) | None => Err (- EINVAL) end,
     d1,
     mkBus (ec_resp bus)
           (ec_log bus ++ [EcRead (tempreg (ctrl_cfg d)) (option_map u8 t)])) /\
  samples d1 = samples d /\ current_sample d1 = current_sample d /\
  kernelmode d1 = kernelmode d /\ fanstate d1 = fanstate d /\
  acerhdf_get_cur_state d bus
  = (match f with Some v => Ok (u8 v) | None => Err (- EINVAL) end,
     mkBus (ec_resp bus)
           (ec_log bus ++ [EcRead (fanreg (ctrl_cfg d)) (option_map u8 f)])) /\
  (forall v, fst (acerhdf_get_cur_state d bus) = Ok v -> is_u8 v) /\
  (forall v, tick_rc (acerhdf_get_ec_temp d bus) = Ok v -> is_u8 v).
Proof.
  cbv zeta.
  assert (Hcfg : ctrl_cfg (acerhdf_check_param d) = ctrl_cfg d /\
                 samples (acerhdf_check_param d) = samples d /\
                 current_sample (acerhdf_check_param d) = current_sample d /\
                 kernelmode (acerhdf_check_param d) = kernelmode d /\
                 fanstate (acerhdf_check_param d) = fanstate d).
  { unfold acerhdf_check_param.
    destruct (fanon d >? ACERHDF_MAX_FANON); driver_fields;
      destruct (negb (kernelmode d =? 0) && negb (prev_interval d =? interval d));
      try destruct (interval d >? ACERHDF_MAX_INTERVAL);
      driver_fields; repeat split. }
  destruct Hcfg as (Hcfg & Hs & Hc & Hk & Hf).
  assert (E1 : acerhdf_get_ec_temp d bus
               = (match ec_resp bus (length (ec_log bus)) (tempreg (ctrl_cfg d)) with
                  | Some v => Ok (u8 v) | None => Err (- EINVAL) end,
                  acerhdf_check_param d,
                  mkBus (ec_resp bus)
                        (ec_log bus ++
                         [EcRead (tempreg (ctrl_cfg d))
                                 (option_map u8 (ec_resp bus (length (ec_log bus))
                                                         (tempreg (ctrl_cfg d))))]))).
  { unfold acerhdf_get_ec_temp, acerhdf_get_temp, ec_read. rewrite Hcfg.
    destruct (ec_resp bus (length (ec_log bus)) (tempreg (ctrl_cfg d)));
      reflexivity. }
  assert (E2 : acerhdf_get_cur_state d bus
               = (match ec_resp bus (length (ec_log bus)) (fanreg (ctrl_cfg d)) with
                  | Some v => Ok (u8 v) | None => Err (- EINVAL) end,
                  mkBus (ec_resp bus)
                        (ec_log bus ++
                         [EcRead (fanreg (ctrl_cfg d))
                                 (option_map u8 (ec_resp bus (length (ec_log bus))
                                                         (fanreg (ctrl_cfg d))))]))).
  { unfold acerhdf_get_cur_state, acerhdf_get_fanstate, ec_read.
    destruct (ec_resp bus (length (ec_log bus)) (fanreg (ctrl_cfg d)));
      reflexivity. }
  split; [exact E1|]. split; [exact Hs|]. split; [exact Hc|].
  split; [exact Hk|]. split; [exact Hf|]. split; [exact E2|].
  split.
  - intros v. rewrite E2. cbn [fst].
    destruct (ec_resp bus (length (ec_log bus)) (fanreg (ctrl_cfg d)));
      [|discriminate].
    intros [= <-]. apply u8_range.
  - intros v. rewrite E1. unfold tick_rc. cbn [fst].
    destruct (ec_resp bus (length (ec_log bus)) (tempreg (ctrl_cfg d)));
      [|discriminate].
    intros [= <-]. apply u8_range.
Qed.

Lemma polls_read_once_witness :
  fst (acerhdf_get_cur_state driver_running (ec_steady 50)) = Ok 50 /\
  is_u8 50.
Proof.
  assert (H : fst (acerhdf_get_cur_state driver_running (ec_steady 50)) = Ok 50)
    by reflexivity.
  split; [exact H|].
  pose proof (polls_read_once driver_running (ec_steady 50)) as P.
  cbv zeta in P. destruct P as (_ & _ & _ & _ & _ & _ & Hb & _).
  exact (Hb 50 H).
Defined.

(** X10: after a get_temp poll the active trip temperature that
    [get_trip_temp(0)] reports is the smaller of [fanon] and 80000,
    for every value the unsigned parameter can hold. *)
Theorem trip_temp_after_poll (d : driver) (bus : ec_bus) :
  is_u32 (fanon d) ->
  acerhdf_get_trip_temp (tick_driver (acerhdf_get_ec_temp d bus)) 0
  = Ok (Z.min (fanon d) ACERHDF_MAX_FANON).
Proof.
  intros Hu.
  destruct (polls_read_once d bus) as (E & _). cbv zeta in E.
  rewrite E. unfold tick_driver. cbn [fst snd].
  unfold acerhdf_get_trip_temp. cbn [Z.eqb]. f_equal.
  unfold acerhdf_check_param, ACERHDF_MAX_FANON, is_u32 in *.
  destruct (Z.gtb_spec (fanon d) 80000); driver_fields;
    destruct (negb (kernelmode d =? 0) && negb (prev_interval d =? interval d));
    try destruct (interval d >? ACERHDF_MAX_INTERVAL); driver_fields;
    rewrite s32_small by (unfold is_s32; lia); lia.
Qed.

Lemma trip_temp_after_poll_witness :
  is_u32 (fanon (set_fanon 4294967295 driver_running)) /\
  acerhdf_get_trip_temp
    (tick_driver (acerhdf_get_ec_temp (set_fanon 4294967295 driver_running)
                                      (ec_steady 50))) 0 = Ok 80000.
Proof.
  assert (H : is_u32 (fanon (set_fanon 4294967295 driver_running)))
    by (unfold is_u32; cbn; lia).
  split; [exact H|].
  exact (trip_temp_after_poll (set_fanon 4294967295 driver_running)
                              (ec_steady 50) H).
Defined.

(** ** Mode changes and suspend *)

(** X11: switching the zone to DISABLED never fails: it returns 0 and
    leaves the driver in BIOS mode, which [get_mode] then reports; it
    writes 5 to the fan register exactly when the driver was in KERNEL
    mode; a second DISABLED changes nothing and does no EC transaction,
    and every later tick of the loop is a no-op.  Switching to ENABLED a
    driver that is in KERNEL mode already changes nothing either. *)
Theorem set_mode_disabled
  (update : driver -> ec_bus -> driver * ec_bus) (d : driver) (bus : ec_bus) :
  (exists d' bus',
      acerhdf_set_mode update d bus THERMAL_DEVICE_DISABLED = Some (0, d', bus') /\
      kernelmode d' = 0 /\
      acerhdf_get_mode d' = Ok THERMAL_DEVICE_DISABLED /\
      ec_log bus' = ec_log bus ++
                    (if kernelmode d =? 0 then []
                     else [EcWrite (fanreg (ctrl_cfg d)) 5]) /\
      acerhdf_set_mode update d' bus' THERMAL_DEVICE_DISABLED = Some (0, d', bus') /\
      forall reqs,
        run_ticks d' bus' reqs = (replicate (length reqs) 0, d', bus')) /\
  (kernelmode d <> 0 ->
   acerhdf_set_mode update d bus THERMAL_DEVICE_ENABLED = Some (0, d, bus) /\
   acerhdf_get_mode d = Ok THERMAL_DEVICE_ENABLED).
Proof.
  split.
  - unfold acerhdf_set_mode.
    destruct (Z.eqb_spec (kernelmode d) 0) as [Hk|Hk]; cbn [negb].
    + exists d, bus. rewrite app_nil_r. unfold acerhdf_get_mode.
      rewrite (proj2 (Z.eqb_eq _ _) Hk). cbn [negb].
      repeat split; try assumption. intros reqs. now apply run_ticks_bios.
    + unfold acerhdf_revert_to_bios_mode, acerhdf_change_fanstate, ec_write.
      driver_fields.
      eexists _, _. split; [reflexivity|].
      destruct (thz_dev d); driver_fields; unfold acerhdf_get_mode;
        driver_fields; cbn [Z.eqb negb];
        (split; [reflexivity|]); (split; [reflexivity|]);
        (split; [reflexivity|]); (split; [reflexivity|]);
        intros reqs; now apply run_ticks_bios.
  - intros Hk. unfold acerhdf_set_mode, acerhdf_get_mode.
    rewrite (proj2 (Z.eqb_neq _ _) Hk). split; reflexivity.
Qed.

Lemma set_mode_disabled_witness :
  kernelmode driver_running <> 0 /\
  acerhdf_set_mode (fun d bus => (d, bus)) driver_running ec_dead
                   THERMAL_DEVICE_ENABLED
  = Some (0, driver_running, ec_dead).
Proof.
  assert (Hk : kernelmode driver_running <> 0) by discriminate.
  split; [exact Hk|].
  exact (proj1 (proj2 (set_mode_disabled (fun d bus => (d, bus))
                                         driver_running ec_dead) Hk)).
Defined.

(** X12: suspend returns 0 and keeps the mode, the polling delay and
    the ring; in KERNEL mode it writes 5 to the fan register and in BIOS
    mode it does no EC transaction.  It is transient: in KERNEL mode the
    next tick returns the same code and leaves the same driver state as
    it would have without the suspend. *)
Theorem suspend_is_transient (d : driver) (bus : ec_bus) (state : Z) :
  let r := acerhdf_suspend d bus in
  tick_rc r = 0 /\
  kernelmode (tick_driver r) = kernelmode d /\
  zone (tick_driver r) = zone d /\
  samples (tick_driver r) = samples d /\
  current_sample (tick_driver r) = current_sample d /\
  ec_log (tick_bus r) = ec_log bus ++
                        (if kernelmode d =? 0 then []
                         else [EcWrite (fanreg (ctrl_cfg d)) 5]) /\
  (kernelmode d <> 0 ->
   forall bus',
     tick_rc (acerhdf_set_cur_state (tick_driver r) bus' state)
     = tick_rc (acerhdf_set_cur_state d bus' state) /\
     tick_driver (acerhdf_set_cur_state (tick_driver r) bus' state)
     = tick_driver (acerhdf_set_cur_state d bus' state)).
Proof.
  cbv zeta. unfold acerhdf_suspend.
  destruct (Z.eqb_spec (kernelmode d) 0) as [Hk|Hk]; cbn [negb].
  - unfold tick_rc, tick_driver, tick_bus. cbn [fst snd].
    rewrite app_nil_r. repeat split.
  - unfold acerhdf_change_fanstate, ec_write, tick_rc, tick_driver, tick_bus.
    driver_fields. cbn [fst snd]. driver_fields.
    do 6 (split; [reflexivity|]).
    intros _ bus'.
    set (d5 := mkDriver _ _ _ _ _ _ _ _ _ _ _).
    assert (Hk5 : kernelmode d5 <> 0) by exact Hk.
    destruct (ec_resp bus' (length (ec_log bus')) (tempreg (ctrl_cfg d)))
      as [v|] eqn:Et.
    + destruct (ec_resp bus' (S (length (ec_log bus'))) (fanreg (ctrl_cfg d)))
        as [f|] eqn:Ef.
      * rewrite (tick_ok d5 bus' state v f Hk5 Et Ef),
          (tick_ok d bus' state v f Hk Et Ef).
        split; reflexivity.
      * rewrite (tick_fan_fails d5 bus' state v Hk5 Et Ef),
          (tick_fan_fails d bus' state v Hk Et Ef).
        split; reflexivity.
    + rewrite (tick_temp_fails d5 bus' state Hk5 Et),
        (tick_temp_fails d bus' state Hk Et).
      split; reflexivity.
Qed.

Lemma suspend_is_transient_witness :
  kernelmode driver_running <> 0 /\
  tick_driver (acerhdf_set_cur_state
                 (tick_driver (acerhdf_suspend driver_running (ec_steady 70)))
                 (ec_steady 70) 0)
  = tick_driver (acerhdf_set_cur_state driver_running (ec_steady 70) 0).
Proof.
  assert (Hk : kernelmode driver_running <> 0) by discriminate.
  split; [exact Hk|].
  pose proof (suspend_is_transient driver_running (ec_steady 70) 0) as H.
  cbv zeta in H. destruct H as (_ & _ & _ & _ & _ & _ & H).
  exact (proj2 (H Hk (ec_steady 70))).
Defined.

(** ** The probe *)

Lemma str_starts_with_cons (c1 c2 : ascii) (cs ct : string) :
  str_starts_with (String c1 cs) (String c2 ct)
  = Ascii.eqb c1 c2 && str_starts_with cs ct.
Proof.
  unfold str_starts_with, strlen. cbn [String.length strncmp].
  change (S (String.length ct) <=? S (String.length cs))%nat
    with (String.length ct <=? String.length cs)%nat.
  destruct (Ascii.eqb c1 c2); cbn [andb]; [reflexivity|].
  destruct (nat_of_ascii c1 <? nat_of_ascii c2)%nat; apply andb_false_r.
Qed.

(** X13: [str_starts_with str start] holds exactly when [str] is
    [start] followed by some rest; in particular every string starts
    with itself and with the empty string, and a string never starts
    with a longer one. *)
Theorem str_starts_with_iff_append (str start : string) :
  (str_starts_with str start = true <-> exists rest, str = (start ++ rest)%string) /\
  str_starts_with str str = true /\
  ((String.length str < String.length start)%nat ->
   str_starts_with str start = false).
Proof.
  assert (Hiff : forall start str,
             str_starts_with str start = true
             <-> exists rest, str = (start ++ rest)%string).
  { clear. induction start as [|c2 ct IH]; intros str.
    - split; [intros _; now exists str | reflexivity].
    - destruct str as [|c1 cs].
      + split; [discriminate | intros [rest H]; discriminate H].
      + rewrite str_starts_with_cons, andb_true_iff, IH.
        split.
        * intros [Hc [rest ->]]. apply Ascii.eqb_eq in Hc. subst c2.
          now exists rest.
        * intros [rest H]. cbn in H. injection H as -> ->.
          split; [apply Ascii.eqb_refl | now exists rest]. }
  split; [apply Hiff|]. split.
  - apply Hiff. exists EmptyString. clear.
    induction str as [|c s IH]; [reflexivity|].
    change (String c s = String c (s ++ EmptyString)%string). now f_equal.
  - intros Hlt. unfold str_starts_with, strlen.
    destruct (Nat.leb_spec (String.length start) (String.length str));
      [lia | reflexivity].
Qed.

Lemma str_starts_with_iff_append_witness :
  (String.length "V1" < String.length "V1.06")%nat /\
  str_starts_with "V1" "V1.06" = false.
Proof.
  assert (H : (String.length "V1" < String.length "V1.06")%nat) by (cbn; lia).
  split; [exact H|].
  exact (proj2 (proj2 (str_starts_with_iff_append "V1" "V1.06")) H).
Defined.

Lemma search_bios_some (tbl : list bios_settings) (vendor product version : string)
  (bt : bios_settings) :
  search_bios tbl vendor product version = Some bt ->
  In bt tbl /\ bs_vendor bt <> EmptyString /\
  str_starts_with vendor (bs_vendor bt) = true /\
  str_starts_with product (bs_product bt) = true /\
  str_starts_with version (bs_version bt) = true.
Proof.
  induction tbl as [|r tbl IH]; [discriminate|].
  cbn [search_bios].
  destruct (nonempty (bs_vendor r)) eqn:Hne; [|discriminate].
  destruct (str_starts_with vendor (bs_vendor r)
            && str_starts_with product (bs_product r)
            && str_starts_with version (bs_version r)) eqn:Hm.
  - intros [= <-]. apply andb_true_iff in Hm. destruct Hm as [Hm H3].
    apply andb_true_iff in Hm. destruct Hm as [H1 H2].
    repeat split; try assumption; [now left|].
    intros E. rewrite E in Hne. discriminate Hne.
  - intros H. destruct (IH H) as (Hin & Hrest). split; [now right | exact Hrest].
Qed.

(** X14: the search never returns the sentinel or anything behind it:
    a row it returns is a row of the table with a non-empty vendor whose
    three strings the identity starts with, and the rows that follow a
    row with an empty vendor are never looked at. *)
Theorem search_stops_at_sentinel
  (pre post : list bios_settings) (s : bios_settings)
  (vendor product version : string) :
  bs_vendor s = EmptyString ->
  search_bios (pre ++ s :: post) vendor product version
  = search_bios pre vendor product version /\
  forall bt,
    search_bios (pre ++ s :: post) vendor product version = Some bt ->
    In bt pre /\ bs_vendor bt <> EmptyString /\
    str_starts_with vendor (bs_vendor bt) = true /\
    str_starts_with product (bs_product bt) = true /\
    str_starts_with version (bs_version bt) = true.
Proof.
  intros Hs.
  assert (E : search_bios (pre ++ s :: post) vendor product version
              = search_bios pre vendor product version).
  { induction pre as [|r pre IH].
    - cbn [app search_bios]. now rewrite Hs.
    - cbn [app search_bios]. now rewrite IH. }
  split; [exact E|]. intros bt H. rewrite E in H.
  now apply search_bios_some.
Qed.

Lemma search_stops_at_sentinel_witness :
  search_bios (bios_tbl ++ [mkBios "Dell" "" "" 1 2 (mkFancmd 0 0) 0])
              "Dell" "XPS" "1.0" = None.
Proof.
  exact (proj1 (search_stops_at_sentinel
                  [mkBios "Acer" "Predator PH517-51" "V1.06" 0x4f 0x58
                          (mkFancmd 0x14 0x04) 1]
                  [mkBios "Dell" "" "" 1 2 (mkFancmd 0 0) 0]
                  (mkBios "" "" "" 0 0 (mkFancmd 0 0) 0)
                  "Dell" "XPS" "1.0" eq_refl)).
Defined.

(** X15: when a DMI string is missing the probe returns -EINVAL, and
    when [list_supported] is set it returns -ECANCELED, even on a
    supported machine; in both cases it leaves every driver variable as
    it was (the ring is not cleared, the mode not changed, no registers
    are copied), and [acerhdf_init] returns the same code without
    running the registrations. *)
Theorem probe_abort_leaves_driver
  (tbl : list bios_settings) (env : probe_env)
  (register : driver -> Z * driver) (d : driver) :
  (dmi_sys_vendor env = None \/ dmi_bios_version env = None \/
   dmi_product_name env = None ->
   acerhdf_check_hardware tbl env d = (- EINVAL, d) /\
   acerhdf_init tbl env register d = (- EINVAL, d)) /\
  (dmi_sys_vendor env <> None -> dmi_bios_version env <> None ->
   dmi_product_name env <> None -> list_supported env <> 0 ->
   acerhdf_check_hardware tbl env d = (- ECANCELED, d) /\
   acerhdf_init tbl env register d = (- ECANCELED, d)).
Proof.
  split.
  - intros H.
    assert (E : acerhdf_check_hardware tbl env d = (- EINVAL, d)).
    { unfold acerhdf_check_hardware.
      destruct (dmi_sys_vendor env), (dmi_bios_version env), (dmi_product_name env);
        try reflexivity.
      destruct H as [H|[H|H]]; discriminate H. }
    split; [exact E|]. unfold acerhdf_init. rewrite E. reflexivity.
  - intros Hv Hver Hp Hls.
    assert (E : acerhdf_check_hardware tbl env d = (- ECANCELED, d)).
    { unfold acerhdf_check_hardware.
      destruct (dmi_sys_vendor env); [|contradiction].
      destruct (dmi_bios_version env); [|contradiction].
      destruct (dmi_product_name env); [|contradiction].
      now rewrite (proj2 (Z.eqb_neq _ _) Hls). }
    split; [exact E|]. unfold acerhdf_init. rewrite E. reflexivity.
Qed.

Lemma probe_abort_leaves_driver_witness :
  acerhdf_init bios_tbl
    (mkProbe (Some "Acer") (Some "V1.06") (Some "Predator PH517-51") 1 "" "")
    (fun d => (0, d)) driver_at_load
  = (- ECANCELED, driver_at_load).
Proof.
  refine (proj2 (proj2 (probe_abort_leaves_driver bios_tbl
    (mkProbe (Some "Acer") (Some "V1.06") (Some "Predator PH517-51") 1 "" "")
    (fun d => (0, d)) driver_at_load) _ _ _ _)); discriminate.
Defined.

Lemma check_hardware_present
  (tbl : list bios_settings) (env : probe_env) (d : driver)
  (vendor version product : string) :
  dmi_sys_vendor env = Some vendor ->
  dmi_bios_version env = Some version ->
  dmi_product_name env = Some product ->
  list_supported env = 0 ->
  acerhdf_check_hardware tbl env d =
  let forced := nonempty (force_bios env) || nonempty (force_product env) in
  let version := if nonempty (force_bios env) then force_bios env else version in
  let product := if nonempty (force_product env) then force_product env else product in
  let d3 := set_samples (replicate (Z.to_nat TEMPERATURE_SAMPLES) 0)
                        (if forced then set_kernelmode 0 d else d) in
  match search_bios tbl vendor product version with
  | None => (- EINVAL, d3)
  | Some bt =>
      (0, set_ctrl_cfg (mkCtrl (bs_fanreg bt) (bs_tempreg bt)
                               (bs_cmd bt) (bs_mcmd_enable bt)) d3)
  end.
Proof.
  intros Hv Hver Hp Hls. unfold acerhdf_check_hardware.
  rewrite Hv, Hver, Hp, Hls. cbn [Z.eqb negb].
  destruct (nonempty (force_bios env)), (nonempty (force_product env));
    reflexivity.
Qed.

(** X16: when [force_bios] or [force_product] is set on a machine with
    its DMI strings, the probe leaves the driver in BIOS mode whether or
    not a row matches, so the control loop stays inert: every tick
    after it is a no-op; and with [force_bios] set the result does not
    depend on the DMI BIOS version at all. *)
Theorem forced_identity_keeps_bios_mode
  (tbl : list bios_settings) (env : probe_env) (d : driver)
  (vendor version product : string) :
  dmi_sys_vendor env = Some vendor ->
  dmi_bios_version env = Some version ->
  dmi_product_name env = Some product ->
  list_supported env = 0 ->
  force_bios env <> EmptyString \/ force_product env <> EmptyString ->
  let d' := snd (acerhdf_check_hardware tbl env d) in
  kernelmode d' = 0 /\
  (forall bus reqs, run_ticks d' bus reqs = (replicate (length reqs) 0, d', bus)) /\
  (force_bios env <> EmptyString ->
   forall version',
     acerhdf_check_hardware tbl
       (mkProbe (dmi_sys_vendor env) (Some version') (dmi_product_name env)
                (list_supported env) (force_bios env) (force_product env)) d
     = acerhdf_check_hardware tbl env d).
Proof.
  intros Hv Hver Hp Hls Hforce d'.
  assert (Hforced : nonempty (force_bios env) || nonempty (force_product env) = true).
  { destruct Hforce as [H|H];
      [destruct (force_bios env) | destruct (force_product env)];
      try contradiction; cbn [nonempty orb]; [reflexivity | apply orb_true_r]. }
  assert (Hk : kernelmode d' = 0).
  { subst d'. rewrite (check_hardware_present tbl env d _ _ _ Hv Hver Hp Hls).
    cbv zeta. rewrite Hforced.
    destruct (search_bios tbl vendor _ _); reflexivity. }
  split; [exact Hk|]. split.
  - intros bus reqs. now apply run_ticks_bios.
  - intros Hfb version'.
    rewrite (check_hardware_present tbl env d _ _ _ Hv Hver Hp Hls).
    rewrite (check_hardware_present tbl _ d vendor version' product);
      try assumption; try reflexivity.
    cbn [force_bios force_product]. cbv zeta.
    destruct (force_bios env); [contradiction|]. reflexivity.
Qed.

Lemma forced_identity_keeps_bios_mode_witness :
  kernelmode (snd (acerhdf_check_hardware bios_tbl
    (mkProbe (Some "Acer") (Some "V9.99") (Some "Predator PH517-51") 0 "V1.06" "")
    driver_at_load)) = 0.
Proof.
  refine (proj1 (forced_identity_keeps_bios_mode bios_tbl
    (mkProbe (Some "Acer") (Some "V9.99") (Some "Predator PH517-51") 0 "V1.06" "")
    driver_at_load "Acer" "V9.99" "Predator PH517-51"
    eq_refl eq_refl eq_refl eq_refl _)).
  left. discriminate.
Defined.


